(** * Flamenco job types with stable output directories

    A shallow embedding of the two job compilers of this repository,
    [BeFrames_BlenderPath.js] and [BeFrames_RootBased.js], and of the
    Python expressions they carry in the [eval] field of the
    [render_output_path] setting.

    Conventions of the embedding:
    - a JavaScript or Python string is a [string]; a character is one
      code unit below 256;
    - [int32] settings are [Z];
    - a [throw] is the [Throw] constructor of [result]; the job a
      compiler works on is passed in and handed back explicitly, so what
      was mutated before a [throw] stays visible;
    - the functions the Flamenco manager provides to a job compiler
      ([frameChunker], [frameCount], [formatTimestampLocal], the [path]
      module) are the fields of the class [HostRuntime]. *)

From Stdlib Require Import String Ascii List Bool Arith ZArith Lia Sorted.
From Stdlib Require Import DecimalString DecimalNat DecimalFacts.
Import ListNotations.

Open Scope list_scope.
Open Scope string_scope.

(** ** Strings *)

Module Str.

(** [has c s]: the character [c] occurs in [s]. *)
Fixpoint has (c : ascii) (s : string) : bool :=
  match s with
  | EmptyString => false
  | String d r => Ascii.eqb d c || has c r
  end.

(** [starts_with p s] is JavaScript's [s.startsWith(p)]. *)
Fixpoint starts_with (p s : string) : bool :=
  match p, s with
  | EmptyString, _ => true
  | String _ _, EmptyString => false
  | String a p', String b s' => Ascii.eqb a b && starts_with p' s'
  end.

(** [includes p s] is JavaScript's [s.includes(p)]. *)
Fixpoint includes (p s : string) : bool :=
  starts_with p s ||
  match s with
  | EmptyString => false
  | String _ r => includes p r
  end.

(** The white space and line terminators [String.prototype.trim]
    removes, among code units below 256: TAB, LF, VT, FF, CR, SP
    and NBSP. *)
Definition is_js_space (c : ascii) : bool :=
  let n := nat_of_ascii c in
  ((9 <=? n)%nat && (n <=? 13)%nat) || (n =? 32)%nat || (n =? 160)%nat.

Fixpoint trimStart (s : string) : string :=
  match s with
  | EmptyString => EmptyString
  | String c r => if is_js_space c then trimStart r else s
  end.

Fixpoint trimEnd (s : string) : string :=
  match s with
  | EmptyString => EmptyString
  | String c r =>
      match trimEnd r with
      | EmptyString => if is_js_space c then EmptyString else String c EmptyString
      | r' => String c r'
      end
  end.

Definition trim (s : string) : string := trimEnd (trimStart s).

(** [replaceAll_dash s] is [s.replaceAll("-", "..")]. *)
Fixpoint replaceAll_dash (s : string) : string :=
  match s with
  | EmptyString => EmptyString
  | String c r =>
      if Ascii.eqb c "-" then String "." (String "." (replaceAll_dash r))
      else String c (replaceAll_dash r)
  end.

(** [split_on sep s] is [s.split(sep)] for a one-character separator:
    never empty, ["a,,b"] gives three pieces. *)
Fixpoint split_on (sep : ascii) (s : string) : list string :=
  match s with
  | EmptyString => [EmptyString]
  | String c r =>
      if Ascii.eqb c sep then EmptyString :: split_on sep r
      else match split_on sep r with
           | h :: t => String c h :: t
           | [] => [String c EmptyString]
           end
  end.

(** [join sep l] is [l.join(sep)]. *)
Fixpoint join (sep : string) (l : list string) : string :=
  match l with
  | [] => EmptyString
  | [x] => x
  | x :: r => x ++ sep ++ join sep r
  end.

(** [all P s]: every character of [s] satisfies [P]. *)
Fixpoint all (P : ascii -> bool) (s : string) : bool :=
  match s with
  | EmptyString => true
  | String c r => P c && all P r
  end.

Definition is_digit (c : ascii) : bool :=
  let n := nat_of_ascii c in (48 <=? n)%nat && (n <=? 57)%nat.

End Str.

(** ** Placeholder substitution: [String.prototype.replace] with the
    pattern [/{([^}]+)}/g] *)

Module Placeholder.

(** [until_close s]: the characters of [s] before its first ["}"], and
    what follows that brace; [None] when [s] holds no ["}"]. *)
Fixpoint until_close (s : string) : option (string * string) :=
  match s with
  | EmptyString => None
  | String c r =>
      if Ascii.eqb c "}" then Some (EmptyString, r)
      else match until_close r with
           | Some (body, rest) => Some (String c body, rest)
           | None => None
           end
  end.

(** [replace_from n f s] is [s.replace(/{([^}]+)}/g, f)], searching at
    most [n] positions.  The pattern matches at a ["{"] when one or
    more characters other than ["}"] stand between it and the next
    ["}"]; the group is that text, and [f] receives the whole match
    and the group.  After a match the search goes on behind it; a
    character where the pattern does not match is copied and the
    search goes on one character further. *)
Fixpoint replace_from (n : nat) (f : string -> string -> string)
         (s : string) : string :=
  match n with
  | O => s
  | S n' =>
      match s with
      | EmptyString => EmptyString
      | String c r =>
          if Ascii.eqb c "{" then
            match until_close r with
            | Some (String k ks, rest) =>
                let key := String k ks in
                f ("{" ++ key ++ "}") key ++ replace_from n' f rest
            | _ => String c (replace_from n' f r)
            end
          else String c (replace_from n' f r)
      end
  end.

Definition replace (f : string -> string -> string) (s : string) : string :=
  replace_from (String.length s) f s.

(** The reading of the specification: every occurrence of the text
    ["{timestamp}"] is replaced by [ts], every other character is
    kept.  [skip] counts the characters of an occurrence still to be
    dropped. *)
Fixpoint spec_substitute_from (skip : nat) (ts : string) (s : string) : string :=
  match s with
  | EmptyString => EmptyString
  | String c r =>
      match skip with
      | S k => spec_substitute_from k ts r
      | O =>
          if Str.starts_with "{timestamp}" s
          then ts ++ spec_substitute_from 10 ts r
          else String c (spec_substitute_from 0 ts r)
      end
  end.

Definition spec_substitute (ts s : string) : string :=
  spec_substitute_from 0 ts s.

(** [flat_braces opened s]: no ["{"] of [s] stands between an earlier
    ["{"] and the ["}"] that follows it ([opened] tells whether a
    ["{"] is already waiting for its ["}"]). *)
Fixpoint flat_braces (opened : bool) (s : string) : bool :=
  match s with
  | EmptyString => true
  | String c r =>
      if Ascii.eqb c "{" then negb opened && flat_braces true r
      else if Ascii.eqb c "}" then flat_braces false r
      else flat_braces opened r
  end.

End Placeholder.

(** ** Results of a compilation *)

(** What a job compiler or a function of the manager throws. *)
Inductive thrown : Type :=
| ThrowString (msg : string)
| MalformedFrameRange
| InvalidChunkSize
| HostError (msg : string).

Inductive result (A : Type) : Type :=
| Ok (a : A)
| Throw (e : thrown).
Arguments Ok {A} a.
Arguments Throw {A} e.

Definition bind {A B : Type} (r : result A) (k : A -> result B) : result B :=
  match r with
  | Ok a => k a
  | Throw e => Throw e
  end.

Notation "x <- r ;; k" := (bind r (fun x => k))
  (at level 61, r at next level, right associativity).

(** A [for ... of] loop whose body may throw and pushes one element per
    round. *)
Fixpoint for_of {A B : Type} (l : list A) (body : A -> result B) : result (list B) :=
  match l with
  | [] => Ok []
  | a :: l' =>
      b <- body a ;;
      bs <- for_of l' body ;;
      Ok (b :: bs)
  end.

(** ** Jobs, tasks and commands *)

(** The settings object of a job: the keys of [JOB_TYPE.settings] that
    the compilers read.  [render_output_root] may be missing from the
    object; [fps] is never read and is left out. *)
Record Settings : Type := mkSettings {
  frames : string;
  chunk_size : Z;
  render_output_root : option string;
  add_path_components : Z;
  force_overwrite : bool;
  stable_directory : bool;
  render_output_path : string;
  blendfile : string;
  scene : string;
  format : string;
  image_file_extension : string
}.

Definition set_render_output_path (s : Settings) (p : string) : Settings :=
  mkSettings (frames s) (chunk_size s) (render_output_root s)
             (add_path_components s) (force_overwrite s) (stable_directory s)
             p (blendfile s) (scene s) (format s) (image_file_extension s).

(** [author.Command(name, {exe, exeArgs, blendfile, args}, count)]. *)
Record Command : Type := mkCommand {
  cmd_name : string;
  exe : string;
  exeArgs : string;
  cmd_blendfile : string;
  args : list string;
  frame_count : nat
}.

(** [author.Task(name, type)] and [task.addCommand(command)]. *)
Record Task : Type := mkTask {
  task_name : string;
  task_type : string;
  commands : list Command
}.

Definition author_Task (name type : string) : Task := mkTask name type [].

Definition addCommand (t : Task) (c : Command) : Task :=
  mkTask (task_name t) (task_type t) (commands t ++ [c]).

(** A job as the compiler sees it.  [job_name] stands for what a job
    carries besides its settings and creation time; no compiler reads
    it. *)
Record Job : Type := mkJob {
  job_name : string;
  created : Z;
  settings : Settings;
  tasks : list Task
}.

Definition addTask (j : Job) (t : Task) : Job :=
  mkJob (job_name j) (created j) (settings j) (tasks j ++ [t]).

Definition set_settings (j : Job) (s : Settings) : Job :=
  mkJob (job_name j) (created j) s (tasks j).

(** ** The manager's functions *)

Class HostRuntime : Type := {
  formatTimestampLocal : Z -> string;
  frameChunker : string -> Z -> result (list string);
  frameCount : string -> result nat;
  path_dirname : string -> string;
  path_basename : string -> string;
  path_join : string -> string -> string
}.

(** ** The functions the two job types share

    [renderOutputPath] and [authorRenderTasks] have the same text in
    both files. *)

Definition timestamp_replacer (ts : string) (whole key : string) : string :=
  if String.eqb key "timestamp" then ts else whole.

Definition renderOutputPath `{HostRuntime} (job : Job) : string :=
  let p := render_output_path (settings job) in
  Placeholder.replace (timestamp_replacer (formatTimestampLocal (created job))) p.

Definition overwrite_script : string :=
  "import bpy" ++ String "010" ""
  ++ "for s in bpy.data.scenes:" ++ String "010" ""
  ++ "    s.render.use_overwrite = True" ++ String "010" ""
  ++ "    s.render.use_placeholder = False" ++ String "010" "".

(** A string is truthy when it is not empty. *)
Definition truthy (s : string) : bool := negb (String.eqb s "").

Definition baseArgs (s : Settings) : list string :=
  if truthy (scene s) then ["--scene"; scene s] else [].

Definition overwriteArgs (s : Settings) : list string :=
  if force_overwrite s then ["--python-expr"; overwrite_script] else [].

Definition authorRenderTasks `{HostRuntime}
           (s : Settings) (renderDir renderOutput : string) : result (list Task) :=
  chunks <- frameChunker (frames s) (chunk_size s) ;;
  for_of chunks (fun chunk =>
    let task := author_Task ("render-" ++ chunk) "blender" in
    count <- frameCount chunk ;;
    let command :=
      mkCommand "blender-render" "{blender}" "{blenderArgs}" (blendfile s)
        (([] ++ baseArgs s) ++ overwriteArgs s ++
           ["--render-output";
            path_join renderDir (path_basename renderOutput);
            "--render-format";
            format s;
            "--render-frame";
            Str.replaceAll_dash chunk])%list
        count in
    Ok (addCommand task command)).

Definition videoFormats : list string := ["FFMPEG"; "AVI_RAW"; "AVI_JPEG"].

(** [videoFormats.includes(x)]. *)
Definition array_includes (l : list string) (x : string) : bool :=
  existsb (String.eqb x) l.

Definition video_message : string :=
  "Video formats are not supported by this job type (image sequences only).".

Definition root_message : string :=
  "Render Output Root is required for the RootBased job type.".

(** ** [BeFrames_BlenderPath.js] *)

Module BlenderPath.

Definition compileJob `{HostRuntime} (job : Job) : result unit * Job :=
  if array_includes videoFormats (format (settings job))
  then (Throw (ThrowString video_message), job)
  else
    let renderOutput := renderOutputPath job in
    let job := set_settings job (set_render_output_path (settings job) renderOutput) in
    let renderDir := path_dirname renderOutput in
    match authorRenderTasks (settings job) renderDir renderOutput with
    | Throw e => (Throw e, job)
    | Ok tasks => (Ok tt, fold_left addTask tasks job)
    end.

End BlenderPath.

(** ** [BeFrames_RootBased.js] *)

Module RootBased.

(** [!root || `${root}`.trim() === ""]. *)
Definition root_missing (root : option string) : bool :=
  match root with
  | None => true
  | Some r => negb (truthy r) || String.eqb (Str.trim r) ""
  end.

Definition compileJob `{HostRuntime} (job : Job) : result unit * Job :=
  if array_includes videoFormats (format (settings job))
  then (Throw (ThrowString video_message), job)
  else if root_missing (render_output_root (settings job))
  then (Throw (ThrowString root_message), job)
  else
    let renderOutput := renderOutputPath job in
    let job := set_settings job (set_render_output_path (settings job) renderOutput) in
    let renderDir := path_dirname renderOutput in
    match authorRenderTasks (settings job) renderDir renderOutput with
    | Throw e => (Throw e, job)
    | Ok tasks => (Ok tt, fold_left addTask tasks job)
    end.

End RootBased.

(** The two job types of the repository. *)
Inductive JobType : Type :=
| BeFrames_BlenderPath
| BeFrames_RootBased.

Definition compileJob `{HostRuntime} (jt : JobType) : Job -> result unit * Job :=
  match jt with
  | BeFrames_BlenderPath => BlenderPath.compileJob
  | BeFrames_RootBased => RootBased.compileJob
  end.

(** ** The [eval] expressions of [render_output_path]

    The expressions are Python, evaluated by the Blender add-on when a
    job is submitted.  [Pathlib] holds what they use of [pathlib], in
    its POSIX flavour. *)

Module Pathlib.

(** A pure path: its root ([""], ["/"] or ["//"]) and the components
    after it. *)
Record PurePath : Type := mkPath {
  root : string;
  parts : list string
}.

(** [posixpath.splitroot], without the drive. *)
Definition splitroot (p : string) : string * string :=
  match p with
  | String "/" (String "/" (String "/" r)) => ("/", String "/" (String "/" r))
  | String "/" (String "/" r) => ("//", r)
  | String "/" r => ("/", r)
  | _ => ("", p)
  end.

Definition keep_part (x : string) : bool :=
  negb (String.eqb x "") && negb (String.eqb x ".").

(** [PurePosixPath(s)]: empty components and ["."] are dropped. *)
Definition of_string (s : string) : PurePath :=
  let (r, rel) := splitroot s in
  mkPath r (filter keep_part (Str.split_on "/" rel)).

(** An absolute segment replaces what stands before it. *)
Definition joinpath (p q : PurePath) : PurePath :=
  if String.eqb (root q) "" then mkPath (root p) (parts p ++ parts q)
  else q.

(** [Path(a, b, ...)]. *)
Definition Path (segments : list PurePath) : PurePath :=
  fold_left joinpath segments (mkPath "" []).

(** [p.parent]: a path without components is its own parent. *)
Definition parent (p : PurePath) : PurePath :=
  mkPath (root p) (removelast (parts p)).

(** [p.name]: the last component, [""] when there is none. *)
Definition name (p : PurePath) : string := last (parts p) "".

(** [str(p)]. *)
Definition str (p : PurePath) : string :=
  match root p, parts p with
  | EmptyString, [] => "."
  | r, ps => r ++ Str.join "/" ps
  end.

(** The text of a directory as it stands before a file name: the
    root, then every component followed by ["/"]. *)
Fixpoint dir_text (components : list string) : string :=
  match components with
  | [] => ""
  | x :: r => x ++ "/" ++ dir_text r
  end.

Definition dir_prefix (p : PurePath) : string :=
  root p ++ dir_text (parts p).

End Pathlib.

(** What the add-on hands to an [eval] expression: [C.scene.render.filepath],
    [jobname], and the functions [abspath] and [last_n_dir_parts]. *)
Class EvalContext : Type := {
  scene_render_filepath : string;
  jobname : string;
  abspath : string -> Pathlib.PurePath;
  last_n_dir_parts : Z -> Pathlib.PurePath
}.

Module BlenderPathEval.
Import Pathlib.

(** The [eval] of [render_output_path] in [BeFrames_BlenderPath.js]. *)
Definition render_output_path `{EvalContext} (stable_directory : bool) : string :=
  let filepath := of_string scene_render_filepath in
  if stable_directory then
    str (Path [parent filepath; of_string (name filepath ++ "_######")])
  else
    str (Path [parent filepath; of_string "{timestamp}";
               of_string (name filepath ++ "_######")]).

End BlenderPathEval.

Module RootBasedEval.
Import Pathlib.

(** The [eval] of [render_output_path] in [BeFrames_RootBased.js]. *)
Definition render_output_path `{EvalContext}
           (render_output_root : string) (add_path_components : Z)
           (stable_directory : bool) : string :=
  let filepath := of_string scene_render_filepath in
  if stable_directory then
    str (Path [abspath render_output_root;
               last_n_dir_parts add_path_components;
               of_string jobname;
               of_string (name filepath ++ "_######")])
  else
    str (Path [abspath render_output_root;
               last_n_dir_parts add_path_components;
               of_string jobname;
               of_string "{timestamp}";
               of_string (name filepath ++ "_######")]).

End RootBasedEval.

(** ** The frame chunker

    [frameChunker] and [frameCount] are called by [authorRenderTasks]
    and are not defined in the job-type files; this module follows
    sections 3 and 4.3 of the specification.  Frame numbers are natural
    numbers. *)

Module FrameRange.

(** Modelled from the spec: a frame number, written in decimal digits;
    "arbitrary whitespace" around it is dropped. *)
Definition parse_number (s : string) : option nat :=
  option_map Nat.of_uint (NilZero.uint_of_string (Str.trim s)).

(** Modelled from the spec: a frame number as it is written in a range
    expression. *)
Definition print_number (n : nat) : string :=
  NilZero.string_of_uint (Nat.to_uint n).

(** Modelled from the spec: one token of a frame-range expression, a
    "single number" or an "inclusive range" of two numbers around a
    ["-"], the first not above the second. *)
Definition parse_token (tok : string) : option (nat * nat) :=
  match Str.split_on "-" tok with
  | [a] =>
      match parse_number a with
      | Some x => Some (x, x)
      | None => None
      end
  | [a; b] =>
      match parse_number a, parse_number b with
      | Some x, Some y => if (x <=? y)%nat then Some (x, y) else None
      | _, _ => None
      end
  | _ => None
  end.

(** Modelled from the spec: the tokens of an expression; one
    unparsable token makes the expression unparsable. *)
Fixpoint parse_tokens (toks : list string) : option (list (nat * nat)) :=
  match toks with
  | [] => Some []
  | t :: r =>
      match parse_token t, parse_tokens r with
      | Some x, Some xs => Some (x :: xs)
      | _, _ => None
      end
  end.

(** Modelled from the spec: the frames of the closed interval
    [a .. b]. *)
Definition expand (r : nat * nat) : list nat :=
  seq (fst r) (S (snd r) - fst r).

(** Modelled from the spec: insertion into an ascending list without
    duplicates. *)
Fixpoint insert (x : nat) (l : list nat) : list nat :=
  match l with
  | [] => [x]
  | y :: r =>
      if (x <? y)%nat then x :: l
      else if (x =? y)%nat then l
      else y :: insert x r
  end.

(** Modelled from the spec: "an ordered, deduplicated set of frame
    numbers". *)
Definition normalize (l : list nat) : list nat := fold_right insert [] l.

(** Modelled from the spec: the parser of frame-range expressions,
    missing from the job-type files.  Section 4.3: "Parses the
    expression into an ordered, deduplicated set of frame numbers
    spanning possibly-disjoint intervals (supports single numbers and
    inclusive ranges, comma-separated, arbitrary whitespace)"; [None]
    stands for an unparsable token. *)
Definition parse_frames (s : string) : option (list nat) :=
  match parse_tokens (Str.split_on "," s) with
  | Some rs => Some (normalize (flat_map expand rs))
  | None => None
  end.

(** Modelled from the spec: the maximal runs of consecutive frames of
    a list, as intervals. *)
Fixpoint runs (l : list nat) : list (nat * nat) :=
  match l with
  | [] => []
  | x :: r =>
      match runs r with
      | (a, b) :: t => if (a =? S x)%nat then (x, b) :: t else (x, x) :: (a, b) :: t
      | [] => [(x, x)]
      end
  end.

(** Modelled from the spec: a run as a token, ["start-end"], or the
    number alone for a run of one frame. *)
Definition print_range (r : nat * nat) : string :=
  if (fst r =? snd r)%nat then print_number (fst r)
  else print_number (fst r) ++ "-" ++ print_number (snd r).

(** Modelled from the spec: the compact range expression of a group
    of frames.  Section 4.3: "a contiguous run of N frames becomes
    start-end". *)
Definition print_frames (l : list nat) : string :=
  Str.join "," (map print_range (runs l)).

(** Modelled from the spec: consecutive groups of [n] frames, the last
    one possibly shorter; [fuel] bounds the number of groups. *)
Fixpoint chunks_of (fuel n : nat) (l : list nat) : list (list nat) :=
  match fuel with
  | O => []
  | S fuel' =>
      match l with
      | [] => []
      | _ :: _ => firstn n l :: chunks_of fuel' n (skipn n l)
      end
  end.

(** Modelled from the spec: [frameChunker], missing from the job-type
    files.  Section 4.3: "Chunk size <= 0 is invalid and fails with
    InvalidChunkSize", whatever the expression; an unparsable
    expression fails with MalformedFrameRange; otherwise the frames are
    partitioned "into consecutive groups of at most chunk_size frames
    each, preserving ascending order; the last group may be smaller",
    each group "re-serialized as a compact range expression". *)
Definition frameChunker (frameRange : string) (chunkSize : Z) : result (list string) :=
  if (chunkSize <=? 0)%Z then Throw InvalidChunkSize
  else
    match parse_frames frameRange with
    | None => Throw MalformedFrameRange
    | Some fs =>
        Ok (map print_frames (chunks_of (List.length fs) (Z.to_nat chunkSize) fs))
    end.

(** Modelled from the spec: [frameCount], missing from the job-type
    files.  Section 3: a chunk "has a count (for scheduling weight)",
    the number of its frames. *)
Definition frameCount (chunk : string) : result nat :=
  match parse_frames chunk with
  | None => Throw MalformedFrameRange
  | Some fs => Ok (List.length fs)
  end.

End FrameRange.

(** ** A runtime to run the compilers on *)

Module SpecHost.

(** Modelled from the spec: [path.dirname], missing from the job-type
    files.  Section 4.2: the "derived directory (everything but the
    final filename segment)". *)
Fixpoint dirname (s : string) : string :=
  match s with
  | EmptyString => EmptyString
  | String c r =>
      if Str.has "/" r then String c (dirname r)
      else EmptyString
  end.

(** Modelled from the spec: [path.basename], the final filename
    segment of a path. *)
Fixpoint basename (s : string) : string :=
  match s with
  | EmptyString => EmptyString
  | String c r =>
      if Str.has "/" s then basename r else s
  end.

(** Modelled from the spec: [path.join] of a directory and a file
    name. *)
Definition join (dir file : string) : string := dir ++ "/" ++ file.

(** The runtime of the specification, for a given rendering of
    creation times. *)
Definition runtime (fmt : Z -> string) : HostRuntime :=
  Build_HostRuntime fmt FrameRange.frameChunker FrameRange.frameCount
                    dirname basename join.

End SpecHost.

(** ** The manager's [path] module

    The manager provides [path.dirname], [path.basename] and
    [path.join] as Go's [filepath.Dir], [filepath.Base] and
    [filepath.Join].  [GoPath] holds them for paths separated by
    ["/"]. *)

Module GoPath.

(** The components [Clean] keeps, read from left to right; [stack]
    holds the components kept so far, the last one first.  An empty
    component and ["."] are dropped; [".."] takes back the component
    before it, is dropped at the root, and is kept where nothing but
    [".."] stands before it. *)
Fixpoint clean_components (rooted : bool) (stack comps : list string) : list string :=
  match comps with
  | [] => rev stack
  | c :: r =>
      if String.eqb c "" || String.eqb c "." then clean_components rooted stack r
      else if String.eqb c ".." then
        match stack with
        | top :: below =>
            if String.eqb top ".." then clean_components rooted (c :: stack) r
            else clean_components rooted below r
        | [] =>
            if rooted then clean_components rooted [] r
            else clean_components rooted [c] r
        end
      else clean_components rooted (c :: stack) r
  end.

(** [filepath.Clean]. *)
Definition Clean (p : string) : string :=
  let rooted := Str.starts_with "/" p in
  let out := (if rooted then "/" else "")
             ++ Str.join "/" (clean_components rooted [] (Str.split_on "/" p)) in
  if String.eqb out "" then "." else out.

(** The path up to its last ["/"], that one included. *)
Fixpoint upto_last_separator (s : string) : string :=
  match s with
  | EmptyString => EmptyString
  | String c r => if Str.has "/" s then String c (upto_last_separator r) else EmptyString
  end.

(** The path behind its last ["/"]. *)
Fixpoint after_last_separator (s : string) : string :=
  match s with
  | EmptyString => EmptyString
  | String c r => if Str.has "/" s then after_last_separator r else s
  end.

Fixpoint strip_trailing_separators (s : string) : string :=
  match s with
  | EmptyString => EmptyString
  | String c r =>
      match strip_trailing_separators r with
      | EmptyString => if Ascii.eqb c "/" then EmptyString else String c EmptyString
      | r' => String c r'
      end
  end.

(** [filepath.Dir]. *)
Definition Dir (p : string) : string := Clean (upto_last_separator p).

(** [filepath.Base]. *)
Definition Base (p : string) : string :=
  if String.eqb p "" then "."
  else
    let last := after_last_separator (strip_trailing_separators p) in
    if String.eqb last "" then "/" else last.

(** [filepath.Join] of two elements. *)
Definition Join (a b : string) : string :=
  if negb (String.eqb a "") then Clean (a ++ "/" ++ b)
  else if negb (String.eqb b "") then Clean b
  else "".



(** The runtime of the specification with these path functions. *)
Definition runtime (fmt : Z -> string) : HostRuntime :=
  Build_HostRuntime fmt FrameRange.frameChunker FrameRange.frameCount Dir Base Join.

End GoPath.

(** ** Vocabulary of the statements *)

(** The task the loop of [authorRenderTasks] pushes for [chunk], once
    [frameCount] has returned [count]. *)
Definition task_of_chunk `{HostRuntime} (s : Settings)
           (renderDir renderOutput chunk : string) (count : nat) : Task :=
  mkTask ("render-" ++ chunk) "blender"
    [mkCommand "blender-render" "{blender}" "{blenderArgs}" (blendfile s)
       ((if String.eqb (scene s) "" then [] else ["--scene"; scene s]) ++
        (if force_overwrite s then ["--python-expr"; overwrite_script] else []) ++
        ["--render-output"; path_join renderDir (path_basename renderOutput);
         "--render-format"; format s;
         "--render-frame"; Str.replaceAll_dash chunk])%list
       count].

(** [authored s dir out chunks ts]: [ts] holds, in the order of
    [chunks], the task of every chunk. *)
Definition authored `{HostRuntime} (s : Settings) (renderDir renderOutput : string)
           (chunks : list string) (ts : list Task) : Prop :=
  Forall2 (fun chunk t =>
             exists count, frameCount chunk = Ok count /\
                           t = task_of_chunk s renderDir renderOutput chunk count)
          chunks ts.

(** The job a compilation leaves behind when it has resolved the
    output path and added the tasks [ts]. *)
Definition compiled_job `{HostRuntime} (job : Job) (ts : list Task) : Job :=
  mkJob (job_name job) (created job)
        (set_render_output_path (settings job) (renderOutputPath job))
        (tasks job ++ ts).

(** The tasks a compilation has added to a job. *)
Definition new_tasks (before after : Job) : list Task :=
  skipn (List.length (tasks before)) (tasks after).

(** A sample job: frames 1 to 5 in chunks of 2, a timestamped
    directory under [/proj/shot010/render]. *)
Definition sample_settings : Settings :=
  mkSettings "1-5" 2 (Some "/farm") 0 true false
             "/proj/shot010/render/{timestamp}/Anim03_######"
             "/studio/projects/shotA/scene.blend" "Scene" "OPEN_EXR" ".exr".

Definition sample_job : Job := mkJob "MyJob" 1766052753 sample_settings [].

Definition sample_runtime : HostRuntime :=
  SpecHost.runtime (fun _ => "2025-12-18_10-12-33").

(** The sample job with a video format, and with a blank root. *)
Definition sample_video_job : Job :=
  mkJob "MyJob" 1766052753
        (mkSettings "1-5" 2 (Some "/farm") 0 true false
                    "/farm/MyJob/{timestamp}/Anim03_######"
                    "/studio/projects/shotA/scene.blend" "Scene" "FFMPEG" ".mkv")
        [].

Definition sample_blank_root_job : Job :=
  mkJob "MyJob" 1766052753
        (mkSettings "1-5" 2 (Some "  ") 0 true false
                    "/farm/MyJob/{timestamp}/Anim03_######"
                    "/studio/projects/shotA/scene.blend" "Scene" "PNG" ".png")
        [].

(** A job with the settings and the creation time of the sample job,
    another name and one task already in it. *)
Definition sample_job_resubmitted : Job :=
  mkJob "Other" (created sample_job) (settings sample_job)
        [author_Task "earlier" "blender"].

(** The sample job once compiled as a BlenderPath job. *)
Definition sample_job_compiled : Job :=
  Eval vm_compute in snd (@compileJob sample_runtime BeFrames_BlenderPath sample_job).

(** A job whose template opens a brace before the placeholder. *)
Definition sample_nested_job : Job :=
  mkJob "MyJob" 1766052753
        (mkSettings "1-5" 2 (Some "/farm") 0 true false
                    "/proj/{a{timestamp}/Anim03_######"
                    "/studio/projects/shotA/scene.blend" "Scene" "PNG" ".png")
        [].

(** A scene that renders into a directory named [{wip], and the job
    submitted from it with [stable_directory] off. *)
Definition sample_brace_context : EvalContext :=
  Build_EvalContext "/proj/{wip/Anim03" "MyJob"
                    Pathlib.of_string (fun _ => Pathlib.mkPath "" []).

Definition sample_brace_job : Job :=
  mkJob "MyJob" 1766052753
        (mkSettings "1-5" 2 None 0 true false
                    "/proj/{wip/{timestamp}/Anim03_######"
                    "/studio/projects/shotA/scene.blend" "Scene" "PNG" ".png")
        [].

(** The sample job with a chunk size of zero, as an image sequence and
    as a video. *)
Definition sample_zero_chunk_job : Job :=
  mkJob "MyJob" 1766052753
        (mkSettings "1-5" 0 (Some "/farm") 0 true false
                    "/farm/MyJob/{timestamp}/Anim03_######"
                    "/studio/projects/shotA/scene.blend" "Scene" "PNG" ".png")
        [].

Definition sample_zero_chunk_video_job : Job :=
  mkJob "MyJob" 1766052753
        (mkSettings "1-5" 0 (Some "/farm") 0 true false
                    "/farm/MyJob/{timestamp}/Anim03_######"
                    "/studio/projects/shotA/scene.blend" "Scene" "FFMPEG" ".mkv")
        [].

(** The scene of the sample job as the add-on sees it. *)
Definition sample_context : EvalContext :=
  Build_EvalContext "/proj/shot010/render/Anim03" "MyJob"
                    Pathlib.of_string (fun _ => Pathlib.of_string "projects/shotA").

(** The template over a base directory: the components of the base,
    then ["{timestamp}"] unless the directory is stable, then the file
    name. *)
Definition template_of (base : Pathlib.PurePath) (stable : bool)
           (prefix : string) : Pathlib.PurePath :=
  Pathlib.mkPath (Pathlib.root base)
                 (Pathlib.parts base
                  ++ (if stable then [] else ["{timestamp}"])
                  ++ [(prefix ++ "_######")%string])%list.

(** The checks [compileJob] makes before it resolves the path: the
    format, and in the root-based job type the render output root. *)
Definition passes_checks (jt : JobType) (s : Settings) : bool :=
  negb (array_includes videoFormats (format s)) &&
  match jt with
  | BeFrames_BlenderPath => true
  | BeFrames_RootBased => negb (RootBased.root_missing (render_output_root s))
  end.

(** A runtime whose chunker hands out a chunk that [frameCount] cannot
    read, between two it can. *)
Definition sample_faulty_runtime : HostRuntime :=
  Build_HostRuntime (fun _ => "2025-12-18_10-12-33")
                    (fun _ _ => Ok ["1-2"; "3-"; "5"])
                    FrameRange.frameCount
                    SpecHost.dirname SpecHost.basename SpecHost.join.

(** A runtime whose chunker throws. *)
Definition sample_failing_runtime : HostRuntime :=
  Build_HostRuntime (fun _ => "2025-12-18_10-12-33")
                    (fun _ _ => Throw (HostError "no frames"))
                    FrameRange.frameCount
                    SpecHost.dirname SpecHost.basename SpecHost.join.

(** A job that renders into a stable directory whose template holds a
    placeholder other than the timestamp. *)
Definition sample_stable_job : Job :=
  mkJob "MyJob" 1766052753
        (mkSettings "1-5" 2 (Some "/farm") 0 true true
                    "/proj/shot010/{take}/Anim03_######"
                    "/studio/projects/shotA/scene.blend" "Scene" "PNG" ".png")
        [].

(** The sample job submitted a minute later. *)
Definition sample_job_later : Job :=
  mkJob "MyJob" 1766052813 sample_settings [].

(** A runtime that renders a creation time as its number of seconds. *)
Definition sample_clock_runtime : HostRuntime :=
  SpecHost.runtime (fun t => NilZero.string_of_int (Z.to_int t)).

(** The job submitted from the sample scene with [stable_directory]
    on, and the same job submitted a minute later. *)
Definition sample_stable_settings : Settings :=
  mkSettings "1-5" 2 None 0 true true
             "/proj/shot010/render/Anim03_######"
             "/studio/projects/shotA/scene.blend" "Scene" "OPEN_EXR" ".exr".

Definition sample_stable_first : Job :=
  mkJob "MyJob" 1766052753 sample_stable_settings [].

Definition sample_stable_second : Job :=
  mkJob "MyJob" 1766052813 sample_stable_settings [].

(** The sample scene submitted under a job name that starts with a
    ["/"]. *)
Definition sample_rooted_name_context : EvalContext :=
  Build_EvalContext "/proj/shot010/render/Anim03" "/tmp/MyJob"
                    Pathlib.of_string (fun _ => Pathlib.of_string "projects/shotA").

(** A scene that renders into a folder named [{timestamp}], and the
    job submitted from it with [stable_directory] on. *)
Definition sample_timestamp_folder_context : EvalContext :=
  Build_EvalContext "/proj/x/{timestamp}/Anim03" "MyJob"
                    Pathlib.of_string (fun _ => Pathlib.mkPath "" []).

Definition sample_timestamp_folder_job : Job :=
  mkJob "MyJob" 1766052753
        (mkSettings "1-5" 2 None 0 true true
                    "/proj/x/{timestamp}/Anim03_######"
                    "/studio/projects/shotA/scene.blend" "Scene" "PNG" ".png")
        [].




(** * Properties *)

(** ** Strings *)

Module StrFacts.

Lemma append_assoc (a b c : string) : (a ++ b) ++ c = a ++ (b ++ c).
Proof. induction a as [|x a IH]; simpl; [reflexivity | now rewrite IH]. Qed.

Lemma length_append (a b : string) :
  String.length (a ++ b) = String.length a + String.length b.
Proof. induction a as [|x a IH]; simpl; [reflexivity | now rewrite IH]. Qed.

Lemma has_append (c : ascii) (a b : string) :
  Str.has c (a ++ b) = Str.has c a || Str.has c b.
Proof.
  induction a as [|x a IH]; simpl; [reflexivity|].
  now rewrite IH, orb_assoc.
Qed.

Lemma starts_with_append (p t : string) : Str.starts_with p (p ++ t) = true.
Proof.
  induction p as [|a p IH]; simpl; [reflexivity|].
  now rewrite Ascii.eqb_refl, IH.
Qed.

Lemma starts_with_inv (p s : string) :
  Str.starts_with p s = true -> exists t, s = p ++ t.
Proof.
  revert s; induction p as [|a p IH]; intros s H.
  - now exists s.
  - destruct s as [|b s]; simpl in H; [discriminate|].
    apply andb_true_iff in H as [Hab Hp].
    apply Ascii.eqb_eq in Hab; subst b.
    destruct (IH _ Hp) as [t ->]. now exists t.
Qed.

Lemma includes_starts_with (p s : string) :
  Str.starts_with p s = true -> Str.includes p s = true.
Proof. intros H. destruct s; simpl; rewrite H; reflexivity. Qed.

(** A string that [includes] a pattern beginning with [c] contains [c]. *)
Lemma includes_has (c : ascii) (p s : string) :
  Str.includes (String c p) s = true -> Str.has c s = true.
Proof.
  induction s as [|d s IH]; simpl; [discriminate|].
  intros H. apply orb_true_iff in H as [H | H].
  - apply andb_true_iff in H as [H _].
    apply Ascii.eqb_eq in H; subst d.
    now rewrite Ascii.eqb_refl.
  - rewrite (IH H). apply orb_true_r.
Qed.

End StrFacts.

(** ** Placeholder substitution *)

Section PlaceholderFacts.
Import Placeholder.

Variable f : string -> string -> string.

Lemma until_close_spec (s body rest : string) :
  until_close s = Some (body, rest) ->
  s = body ++ "}" ++ rest /\ Str.has "}" body = false.
Proof.
  revert body rest; induction s as [|c s IH]; intros body rest; simpl.
  - discriminate.
  - destruct (Ascii.eqb c "}") eqn:E.
    + intros [= <- <-]. apply Ascii.eqb_eq in E; subst c. now split.
    + destruct (until_close s) as [[b r]|]; [|discriminate].
      intros [= <- <-]. destruct (IH b r eq_refl) as [-> Hb].
      split; [reflexivity|]. simpl. now rewrite E.
Qed.

Lemma until_close_append (body rest : string) :
  Str.has "}" body = false ->
  until_close (body ++ String "}" rest) = Some (body, rest).
Proof.
  induction body as [|c b IH]; simpl; [reflexivity|].
  intros H. apply orb_false_iff in H as [Hc Hb].
  now rewrite Hc, (IH Hb).
Qed.

Lemma until_close_none (s : string) :
  until_close s = None <-> Str.has "}" s = false.
Proof.
  induction s as [|c s IH]; simpl; [tauto|].
  destruct (Ascii.eqb c "}"); simpl.
  - split; discriminate.
  - destruct (until_close s) as [[b r]|].
    + split; [discriminate|]. intros H. apply IH in H. discriminate.
    + split; [|reflexivity]. intros _. now apply IH.
Qed.

Lemma replace_from_fuel (n m : nat) (s : string) :
  String.length s <= n -> String.length s <= m ->
  replace_from n f s = replace_from m f s.
Proof.
  revert m s; induction n as [|n IH]; intros m s Hn Hm.
  - destruct s; simpl in Hn; [|lia]. now destruct m.
  - destruct m as [|m]; [destruct s; simpl in Hm; [reflexivity | lia]|].
    destruct s as [|c r]; [reflexivity|]. simpl in Hn, Hm. simpl.
    destruct (Ascii.eqb c "{").
    + destruct (until_close r) as [[[|k ks] rest]|] eqn:E.
      * f_equal. apply IH; lia.
      * apply until_close_spec in E as [E _].
        assert (String.length rest <= String.length r).
        { rewrite E, StrFacts.length_append. simpl. lia. }
        f_equal. apply IH; lia.
      * f_equal. apply IH; lia.
    + f_equal. apply IH; lia.
Qed.

Lemma replace_other (c : ascii) (r : string) :
  Ascii.eqb c "{" = false -> replace f (String c r) = String c (replace f r).
Proof. intros H. unfold replace. simpl. now rewrite H. Qed.

Lemma replace_match (r key rest : string) :
  until_close r = Some (key, rest) -> key <> "" ->
  replace f (String "{" r) = f ("{" ++ key ++ "}") key ++ replace f rest.
Proof.
  intros E Hk. unfold replace. simpl. rewrite E.
  destruct key as [|k ks]; [congruence|].
  f_equal. apply replace_from_fuel; [|lia].
  apply until_close_spec in E as [-> _].
  rewrite StrFacts.length_append. simpl. lia.
Qed.

Lemma replace_no_match (r : string) :
  (until_close r = None \/ exists rest, until_close r = Some ("", rest)) ->
  replace f (String "{" r) = String "{" (replace f r).
Proof.
  intros H. unfold replace. simpl.
  destruct H as [-> | [rest ->]]; reflexivity.
Qed.

(** A text without ["{"] holds no placeholder. *)
Lemma replace_no_open (s : string) :
  Str.has "{" s = false -> replace f s = s.
Proof.
  induction s as [|c s IH]; [reflexivity|]. simpl.
  intros H. apply orb_false_iff in H as [Hc Hs].
  now rewrite (replace_other _ _ Hc), (IH Hs).
Qed.

Lemma replace_prefix_no_open (pre s : string) :
  Str.has "{" pre = false -> replace f (pre ++ s) = pre ++ replace f s.
Proof.
  induction pre as [|c p IH]; [reflexivity|]. simpl.
  intros H. apply orb_false_iff in H as [Hc Hp].
  now rewrite (replace_other _ _ Hc), (IH Hp).
Qed.

(** The first placeholder of a template. *)
Lemma replace_first_placeholder (pre key post : string) :
  Str.has "{" pre = false -> key <> "" -> Str.has "}" key = false ->
  replace f (pre ++ "{" ++ key ++ "}" ++ post)
  = pre ++ f ("{" ++ key ++ "}") key ++ replace f post.
Proof.
  intros Hpre Hkey Hclose.
  rewrite (replace_prefix_no_open _ _ Hpre). f_equal.
  change ("{" ++ key ++ "}" ++ post) with (String "{" (key ++ "}" ++ post)).
  apply replace_match; [|assumption].
  now apply until_close_append.
Qed.

End PlaceholderFacts.

Section SubstituteFacts.
Import Placeholder.

Variable ts : string.

Lemma spec_copy (c : ascii) (r : string) :
  Str.starts_with "{timestamp}" (String c r) = false ->
  spec_substitute_from 0 ts (String c r) = String c (spec_substitute_from 0 ts r).
Proof.
  intros H. change (spec_substitute_from 0 ts (String c r))
    with (if Str.starts_with "{timestamp}" (String c r)
          then ts ++ spec_substitute_from 10 ts r
          else String c (spec_substitute_from 0 ts r)).
  now rewrite H.
Qed.

Lemma starts_with_open (p : string) (c : ascii) (r : string) :
  Ascii.eqb c "{" = false -> Str.starts_with (String "{" p) (String c r) = false.
Proof.
  intros H. cbn [Str.starts_with]. rewrite Ascii.eqb_sym, H. reflexivity.
Qed.

Lemma spec_prefix_no_open (a b : string) :
  Str.has "{" a = false ->
  spec_substitute_from 0 ts (a ++ b) = a ++ spec_substitute_from 0 ts b.
Proof.
  induction a as [|c a IH]; [reflexivity|]. simpl Str.has.
  intros H. apply orb_false_iff in H as [Hc Ha].
  change (String c a ++ b) with (String c (a ++ b)).
  rewrite spec_copy by now apply starts_with_open.
  now rewrite (IH Ha).
Qed.

Lemma spec_timestamp (rest : string) :
  spec_substitute_from 0 ts ("{timestamp}" ++ rest)
  = ts ++ spec_substitute_from 0 ts rest.
Proof. reflexivity. Qed.

(** The text between ["{"] and the next ["}"] of a template that
    starts with ["{timestamp}"] is ["timestamp"]. *)
Lemma starts_with_timestamp_key (r key rest : string) :
  Str.starts_with "{timestamp}" (String "{" r) = true ->
  until_close r = Some (key, rest) -> key = "timestamp".
Proof.
  intros H E. apply StrFacts.starts_with_inv in H as [t H].
  injection H as ->.
  assert (E' : until_close ("timestamp}" ++ t) = Some ("timestamp", t))
    by exact (until_close_append "timestamp" t eq_refl).
  assert (E'' : Some (key, rest) = Some ("timestamp", t))
    by (rewrite <- E; exact E').
  now injection E'' as -> _.
Qed.

Lemma starts_with_timestamp_close (r : string) :
  Str.starts_with "{timestamp}" (String "{" r) = true -> Str.has "}" r = true.
Proof.
  intros H. apply StrFacts.starts_with_inv in H as [t H].
  injection H as ->. reflexivity.
Qed.

Lemma flat_weaken (s : string) :
  flat_braces true s = true -> flat_braces false s = true.
Proof.
  induction s as [|c s IH]; [reflexivity|]. simpl.
  destruct (Ascii.eqb c "{"); [discriminate|].
  destruct (Ascii.eqb c "}"); [trivial | exact IH].
Qed.

Lemma flat_opened_split (key rest : string) :
  flat_braces true (key ++ String "}" rest) = true ->
  Str.has "}" key = false ->
  Str.has "{" key = false /\ flat_braces false rest = true.
Proof.
  induction key as [|c k IH]; simpl.
  - intros H _. now split.
  - destruct (Ascii.eqb c "{"); [discriminate|].
    destruct (Ascii.eqb c "}"); [discriminate|]. exact IH.
Qed.

(** On a template whose braces are not nested, the replacement of the
    pattern's matches is the substitution of the text
    ["{timestamp}"]. *)
Lemma replace_flat_bounded (n : nat) (s : string) :
  String.length s <= n -> flat_braces false s = true ->
  replace (timestamp_replacer ts) s = spec_substitute_from 0 ts s.
Proof.
  revert s; induction n as [|n IH]; intros s Hn Hflat.
  { destruct s; simpl in Hn; [reflexivity | lia]. }
  destruct s as [|c r]; [reflexivity|]. simpl in Hn.
  destruct (Ascii.eqb c "{") eqn:Ec.
  - apply Ascii.eqb_eq in Ec; subst c. simpl in Hflat.
    destruct (until_close r) as [[key rest]|] eqn:E.
    + destruct (until_close_spec _ _ _ E) as [Hr Hkey].
      assert (Hlen : String.length rest <= n).
      { rewrite Hr, StrFacts.length_append in Hn. simpl in Hn. lia. }
      destruct (flat_opened_split key rest) as [Hopen Hrest];
        [rewrite Hr in Hflat; exact Hflat | assumption |].
      destruct (string_dec key "") as [-> | Hne].
      * rewrite replace_no_match by (right; now exists rest).
        rewrite spec_copy by (rewrite Hr; reflexivity).
        f_equal. apply IH; [lia | now apply flat_weaken].
      * rewrite (replace_match _ _ _ _ E Hne), (IH _ Hlen Hrest).
        unfold timestamp_replacer.
        destruct (String.eqb key "timestamp") eqn:Ek.
        -- apply String.eqb_eq in Ek; subst key. rewrite Hr.
           change (String "{" ("timestamp" ++ "}" ++ rest))
             with ("{timestamp}" ++ rest).
           now rewrite spec_timestamp.
        -- rewrite spec_copy.
           2:{ destruct (Str.starts_with "{timestamp}" (String "{" r)) eqn:Es;
                 [|reflexivity].
               apply String.eqb_neq in Ek.
               now apply (starts_with_timestamp_key _ _ _ Es) in E. }
           rewrite Hr, (spec_prefix_no_open _ _ Hopen).
           change ("}" ++ rest) with (String "}" rest).
           rewrite spec_copy by reflexivity.
           simpl. f_equal. now rewrite StrFacts.append_assoc.
    + rewrite replace_no_match by now left.
      apply until_close_none in E.
      rewrite spec_copy.
      2:{ destruct (Str.starts_with "{timestamp}" (String "{" r)) eqn:Es;
            [|reflexivity].
          apply starts_with_timestamp_close in Es. congruence. }
      f_equal. apply IH; [lia | now apply flat_weaken].
  - rewrite (replace_other _ _ _ Ec).
    rewrite spec_copy by now apply starts_with_open.
    f_equal. apply IH; [lia|].
    simpl in Hflat. rewrite Ec in Hflat.
    now destruct (Ascii.eqb c "}").
Qed.

Lemma replace_flat (s : string) :
  flat_braces false s = true ->
  replace (timestamp_replacer ts) s = spec_substitute ts s.
Proof. intros H. now apply (replace_flat_bounded (String.length s)). Qed.

End SubstituteFacts.

(** ** The compilers *)

Section CompilerFacts.
Context `{HostRuntime}.

Lemma for_of_Forall2 {A B : Type} (l : list A) (body : A -> result B) (bs : list B) :
  for_of l body = Ok bs -> Forall2 (fun a b => body a = Ok b) l bs.
Proof.
  revert bs; induction l as [|a l IH]; intros bs; simpl.
  - intros [= <-]. constructor.
  - destruct (body a) as [b|e] eqn:Eb; simpl; [|discriminate].
    destruct (for_of l body) as [bs'|e]; simpl; [|discriminate].
    intros [= <-]. constructor; [assumption | now apply IH].
Qed.

Lemma fold_addTask (ts : list Task) (j : Job) :
  fold_left addTask ts j
  = mkJob (job_name j) (created j) (settings j) (tasks j ++ ts).
Proof.
  revert j; induction ts as [|t ts IH]; intros j; simpl.
  - rewrite List.app_nil_r. now destruct j.
  - rewrite IH. simpl. now rewrite <- List.app_assoc.
Qed.

Lemma truthy_eqb (s : string) :
  (if truthy s then ["--scene"; s] else [])
  = (if String.eqb s "" then [] else ["--scene"; s]).
Proof. unfold truthy. now destruct (String.eqb s ""). Qed.

Lemma authorRenderTasks_Ok (s : Settings) (dir out : string) (ts : list Task) :
  authorRenderTasks s dir out = Ok ts ->
  exists chunks,
    frameChunker (frames s) (chunk_size s) = Ok chunks /\
    authored s dir out chunks ts.
Proof.
  unfold authorRenderTasks.
  destruct (frameChunker (frames s) (chunk_size s)) as [chunks|e]; simpl;
    [|discriminate].
  intros Hfor. exists chunks. split; [reflexivity|].
  apply for_of_Forall2 in Hfor. unfold authored.
  eapply Forall2_impl; [|exact Hfor]. cbv beta.
  intros chunk t. destruct (frameCount chunk) as [count|e]; simpl; [|discriminate].
  intros [= <-]. exists count. split; [reflexivity|].
  unfold task_of_chunk, addCommand, author_Task, baseArgs, overwriteArgs. simpl.
  now rewrite truthy_eqb.
Qed.

(** The settings the tasks are authored from differ from the job's
    only in [render_output_path], which [frameChunker] is not given. *)
Lemma blenderpath_Ok (job job' : Job) :
  BlenderPath.compileJob job = (Ok tt, job') ->
  array_includes videoFormats (format (settings job)) = false /\
  exists chunks ts,
    frameChunker (frames (settings job)) (chunk_size (settings job)) = Ok chunks /\
    authored (set_render_output_path (settings job) (renderOutputPath job))
             (path_dirname (renderOutputPath job)) (renderOutputPath job)
             chunks ts /\
    job' = compiled_job job ts.
Proof.
  unfold BlenderPath.compileJob.
  destruct (array_includes videoFormats (format (settings job)));
    [discriminate|]. cbv zeta.
  destruct (authorRenderTasks _ _ _) as [ts|e] eqn:E; [|discriminate].
  intros [= <-]. split; [reflexivity|].
  apply authorRenderTasks_Ok in E as [chunks [Hc Ha]].
  exists chunks, ts. repeat split; try assumption.
  now rewrite fold_addTask.
Qed.

Lemma blenderpath_Throw (job job' : Job) (e : thrown) :
  BlenderPath.compileJob job = (Throw e, job') ->
  tasks job' = tasks job /\ job_name job' = job_name job /\
  created job' = created job.
Proof.
  unfold BlenderPath.compileJob.
  destruct (array_includes videoFormats (format (settings job))).
  - intros [= _ <-]. auto.
  - cbv zeta. destruct (authorRenderTasks _ _ _) as [ts|e']; [discriminate|].
    intros [= _ <-]. auto.
Qed.

(** Behind its two checks the root-based compiler is the other one. *)
Lemma rootbased_unfold (job : Job) :
  RootBased.compileJob job =
  if array_includes videoFormats (format (settings job))
  then (Throw (ThrowString video_message), job)
  else if RootBased.root_missing (render_output_root (settings job))
       then (Throw (ThrowString root_message), job)
       else BlenderPath.compileJob job.
Proof.
  unfold RootBased.compileJob, BlenderPath.compileJob.
  now destruct (array_includes videoFormats (format (settings job))).
Qed.

Lemma rootbased_Ok (job job' : Job) :
  RootBased.compileJob job = (Ok tt, job') ->
  BlenderPath.compileJob job = (Ok tt, job') /\
  RootBased.root_missing (render_output_root (settings job)) = false.
Proof.
  rewrite rootbased_unfold.
  destruct (array_includes videoFormats (format (settings job)));
    [discriminate|].
  destruct (RootBased.root_missing _); [discriminate | auto].
Qed.

Lemma rootbased_Throw (job job' : Job) (e : thrown) :
  RootBased.compileJob job = (Throw e, job') ->
  tasks job' = tasks job /\ job_name job' = job_name job /\
  created job' = created job.
Proof.
  rewrite rootbased_unfold.
  destruct (array_includes videoFormats (format (settings job)));
    [intros [= _ <-]; auto|].
  destruct (RootBased.root_missing _); [intros [= _ <-]; auto|].
  apply blenderpath_Throw.
Qed.

Lemma array_includes_In (l : list string) (x : string) :
  array_includes l x = true <-> In x l.
Proof.
  unfold array_includes. rewrite existsb_exists. split.
  - intros [y [Hy E]]. apply String.eqb_eq in E. now subst.
  - intros Hx. exists x. split; [assumption | apply String.eqb_refl].
Qed.

End CompilerFacts.

Section JobTypeFacts.
Context `{HostRuntime}.

Lemma compileJob_Ok (jt : JobType) (job job' : Job) :
  compileJob jt job = (Ok tt, job') ->
  array_includes videoFormats (format (settings job)) = false /\
  exists chunks ts,
    frameChunker (frames (settings job)) (chunk_size (settings job)) = Ok chunks /\
    authored (set_render_output_path (settings job) (renderOutputPath job))
             (path_dirname (renderOutputPath job)) (renderOutputPath job)
             chunks ts /\
    job' = compiled_job job ts.
Proof.
  destruct jt; simpl; intros E.
  - now apply blenderpath_Ok.
  - apply rootbased_Ok in E as [E _]. now apply blenderpath_Ok.
Qed.

Lemma compileJob_Throw (jt : JobType) (job job' : Job) (e : thrown) :
  compileJob jt job = (Throw e, job') ->
  tasks job' = tasks job /\ job_name job' = job_name job /\
  created job' = created job.
Proof.
  destruct jt; simpl; [apply blenderpath_Throw | apply rootbased_Throw].
Qed.

Lemma compileJob_video (jt : JobType) (job : Job) :
  array_includes videoFormats (format (settings job)) = true ->
  compileJob jt job = (Throw (ThrowString video_message), job).
Proof.
  intros E. destruct jt; simpl.
  - unfold BlenderPath.compileJob. now rewrite E.
  - rewrite rootbased_unfold. now rewrite E.
Qed.

Lemma skipn_length_app {A : Type} (l r : list A) :
  skipn (List.length l) (l ++ r) = r.
Proof. induction l as [|a l IH]; simpl; [reflexivity | exact IH]. Qed.

(** A compilation reads the settings and the creation time of a job,
    and nothing else of it. *)
Lemma compileJob_reads (jt : JobType) (job : Job) :
  exists (r : result unit) (s' : Settings) (ts : list Task),
    (forall name old,
        compileJob jt (mkJob name (created job) (settings job) old)
        = (r, mkJob name (created job) s' (old ++ ts))).
Proof.
  assert (HB : exists r s' ts, forall name old,
             BlenderPath.compileJob (mkJob name (created job) (settings job) old)
             = (r, mkJob name (created job) s' (old ++ ts))).
  { pose (ro := renderOutputPath job).
    assert (Hro : forall name old,
               renderOutputPath (mkJob name (created job) (settings job) old) = ro)
      by reflexivity.
    unfold BlenderPath.compileJob. cbv zeta. cbn [settings set_settings].
    destruct (array_includes videoFormats (format (settings job))).
    - exists (Throw (ThrowString video_message)), (settings job), [].
      intros name old. now rewrite List.app_nil_r.
    - destruct (authorRenderTasks (set_render_output_path (settings job) ro)
                                  (path_dirname ro) ro) as [ts|e] eqn:Ea.
      + exists (Ok tt), (set_render_output_path (settings job) ro), ts.
        intros name old. rewrite Hro, Ea, fold_addTask. reflexivity.
      + exists (Throw e), (set_render_output_path (settings job) ro), [].
        intros name old. rewrite Hro, Ea. cbn [job_name created tasks].
        now rewrite List.app_nil_r. }
  destruct jt; [exact HB|].
  destruct HB as [r [s' [ts HB]]]. simpl.
  destruct (array_includes videoFormats (format (settings job))) eqn:Ev.
  - exists (Throw (ThrowString video_message)), (settings job), [].
    intros name old. rewrite rootbased_unfold. cbn [settings]. rewrite Ev.
    now rewrite List.app_nil_r.
  - destruct (RootBased.root_missing (render_output_root (settings job))) eqn:Er.
    + exists (Throw (ThrowString root_message)), (settings job), [].
      intros name old. rewrite rootbased_unfold. cbn [settings]. rewrite Ev, Er.
      now rewrite List.app_nil_r.
    + exists r, s', ts. intros name old. rewrite rootbased_unfold.
      cbn [settings]. rewrite Ev, Er. apply HB.
Qed.

End JobTypeFacts.

(** * The claims *)

(** C6.  A job whose format is FFMPEG, AVI_RAW or AVI_JPEG is refused
    by both job types with the unsupported-format message, whatever the
    runtime does.  The job comes back as it went in: its
    [render_output_path] has not been resolved and it holds no new
    task. *)
Theorem video_format_rejected `{HostRuntime} (jt : JobType) (job : Job) :
  In (format (settings job)) ["FFMPEG"; "AVI_RAW"; "AVI_JPEG"] ->
  compileJob jt job = (Throw (ThrowString video_message), job).
Proof.
  intros Hin. apply compileJob_video.
  now apply array_includes_In.
Qed.

Lemma video_format_rejected_witness :
  In (format (settings sample_video_job)) ["FFMPEG"; "AVI_RAW"; "AVI_JPEG"] /\
  @compileJob sample_runtime BeFrames_RootBased sample_video_job
  = (Throw (ThrowString video_message), sample_video_job).
Proof.
  split.
  - simpl. auto.
  - apply (@video_format_rejected sample_runtime BeFrames_RootBased sample_video_job).
    simpl. auto.
Defined.

(** C7.  In the root-based job type a job whose render output root is
    missing, or is a string that is empty once trimmed, is refused: with
    the missing-root message when its format is not a video format, and
    with the unsupported-format message when it is, the format being
    checked first.  The job comes back as it went in, so no path was
    resolved and no task authored. *)
Theorem missing_root_rejected `{HostRuntime} (job : Job) :
  (render_output_root (settings job) = None \/
   exists r, render_output_root (settings job) = Some r /\ Str.trim r = "") ->
  RootBased.compileJob job
  = (Throw (ThrowString
              (if array_includes videoFormats (format (settings job))
               then video_message else root_message)),
     job).
Proof.
  intros Hroot. rewrite rootbased_unfold.
  destruct (array_includes videoFormats (format (settings job)));
    [reflexivity|].
  assert (Hm : RootBased.root_missing (render_output_root (settings job)) = true).
  { destruct Hroot as [-> | [r [-> Hr]]]; [reflexivity|].
    unfold RootBased.root_missing. rewrite Hr. apply orb_true_r. }
  now rewrite Hm.
Qed.

Lemma missing_root_rejected_witness :
  (render_output_root (settings sample_blank_root_job) = None \/
   exists r, render_output_root (settings sample_blank_root_job) = Some r /\
             Str.trim r = "") /\
  @RootBased.compileJob sample_runtime sample_blank_root_job
  = (Throw (ThrowString root_message), sample_blank_root_job).
Proof.
  assert (Hblank : render_output_root (settings sample_blank_root_job) = None \/
                   exists r, render_output_root (settings sample_blank_root_job)
                             = Some r /\ Str.trim r = "").
  { right. exists "  ". split; reflexivity. }
  split; [exact Hblank|].
  exact (@missing_root_rejected sample_runtime sample_blank_root_job Hblank).
Defined.

(** C9.  A compilation is all or nothing.  When it throws, the job
    holds the tasks it held before.  When it returns, the job holds its
    former tasks followed by one task per chunk, in the order of the
    chunks [frameChunker] returned, each task with exactly one
    command. *)
Theorem compileJob_atomic `{HostRuntime} (jt : JobType) (job : Job) :
  match compileJob jt job with
  | (Throw _, job') => tasks job' = tasks job
  | (Ok _, job') =>
      exists chunks ts,
        frameChunker (frames (settings job)) (chunk_size (settings job)) = Ok chunks /\
        tasks job' = (tasks job ++ ts)%list /\
        Forall2 (fun chunk t =>
                   task_name t = "render-" ++ chunk /\
                   exists c, commands t = [c])
                chunks ts
  end.
Proof.
  destruct (compileJob jt job) as [[[]|e] job'] eqn:E.
  - apply compileJob_Ok in E as [_ [chunks [ts [Hc [Ha ->]]]]].
    exists chunks, ts. repeat split; try assumption.
    eapply Forall2_impl; [|exact Ha]. cbv beta.
    intros chunk t [count [_ ->]]. split; [reflexivity|]. eexists. reflexivity.
  - now apply compileJob_Throw in E as [E _].
Qed.

(** C10.  A compilation is a function of the settings and the creation
    time of the job.  Two jobs that agree on both, whatever else
    distinguishes them, get the same resolved output path, the same
    outcome, the same settings afterwards and the same new tasks, with
    their names, frame counts and arguments. *)
Theorem compileJob_deterministic `{HostRuntime} (jt : JobType) (j1 j2 : Job) :
  settings j1 = settings j2 ->
  created j1 = created j2 ->
  renderOutputPath j1 = renderOutputPath j2 /\
  fst (compileJob jt j1) = fst (compileJob jt j2) /\
  settings (snd (compileJob jt j1)) = settings (snd (compileJob jt j2)) /\
  new_tasks j1 (snd (compileJob jt j1)) = new_tasks j2 (snd (compileJob jt j2)).
Proof.
  intros Hs Hc. split.
  - unfold renderOutputPath. now rewrite Hs, Hc.
  - destruct (compileJob_reads jt j1) as [r [s' [ts Hreads]]].
    pose proof (Hreads (job_name j1) (tasks j1)) as E1.
    pose proof (Hreads (job_name j2) (tasks j2)) as E2.
    rewrite Hs, Hc in E2.
    assert (R1 : mkJob (job_name j1) (created j1) (settings j1) (tasks j1) = j1)
      by now destruct j1.
    assert (R2 : mkJob (job_name j2) (created j2) (settings j2) (tasks j2) = j2)
      by now destruct j2.
    rewrite R1 in E1. rewrite R2 in E2. rewrite E1, E2.
    unfold new_tasks. simpl. now rewrite !skipn_length_app.
Qed.

Lemma compileJob_deterministic_witness :
  settings sample_job = settings sample_job_resubmitted /\
  created sample_job = created sample_job_resubmitted /\
  (@renderOutputPath sample_runtime sample_job
   = @renderOutputPath sample_runtime sample_job_resubmitted /\
   fst (@compileJob sample_runtime BeFrames_BlenderPath sample_job)
   = fst (@compileJob sample_runtime BeFrames_BlenderPath sample_job_resubmitted) /\
   settings (snd (@compileJob sample_runtime BeFrames_BlenderPath sample_job))
   = settings (snd (@compileJob sample_runtime BeFrames_BlenderPath
                                sample_job_resubmitted)) /\
   new_tasks sample_job
             (snd (@compileJob sample_runtime BeFrames_BlenderPath sample_job))
   = new_tasks sample_job_resubmitted
               (snd (@compileJob sample_runtime BeFrames_BlenderPath
                                 sample_job_resubmitted))).
Proof.
  split; [reflexivity|]. split; [reflexivity|].
  apply (@compileJob_deterministic sample_runtime BeFrames_BlenderPath
           sample_job sample_job_resubmitted); reflexivity.
Defined.

(** C3, amended.  Resolution never fails and works on the placeholders
    of the template, read from left to right: a ["{"], one or more
    characters other than ["}"], and the next ["}"].  The first
    placeholder is replaced by the formatted creation time when its
    text is [timestamp] and kept as it is otherwise, and resolution
    goes on behind it.  On a template in which no ["{"] stands between
    an earlier ["{"] and the ["}"] that follows it, the result is the
    template with every occurrence of ["{timestamp}"] replaced and
    every other character kept. *)
Theorem placeholders_resolved `{HostRuntime} (job : Job) :
  let ts := formatTimestampLocal (created job) in
  let template := render_output_path (settings job) in
  (forall pre key post,
      template = pre ++ "{" ++ key ++ "}" ++ post ->
      Str.has "{" pre = false -> key <> "" -> Str.has "}" key = false ->
      renderOutputPath job
      = pre ++ (if String.eqb key "timestamp" then ts else "{" ++ key ++ "}")
            ++ Placeholder.replace (timestamp_replacer ts) post) /\
  (Placeholder.flat_braces false template = true ->
   renderOutputPath job = Placeholder.spec_substitute ts template).
Proof.
  intros ts template. split.
  - intros pre key post Ht Hpre Hkey Hclose.
    unfold renderOutputPath. fold template. fold ts. rewrite Ht.
    now rewrite replace_first_placeholder.
  - intros Hflat. unfold renderOutputPath. now apply replace_flat.
Qed.

Lemma placeholders_resolved_witness :
  render_output_path (settings sample_job)
  = "/proj/shot010/render/" ++ "{" ++ "timestamp" ++ "}" ++ "/Anim03_######" /\
  Str.has "{" "/proj/shot010/render/" = false /\
  "timestamp" <> "" /\
  Str.has "}" "timestamp" = false /\
  Placeholder.flat_braces false (render_output_path (settings sample_job)) = true /\
  @renderOutputPath sample_runtime sample_job
  = "/proj/shot010/render/2025-12-18_10-12-33/Anim03_######" /\
  @renderOutputPath sample_runtime sample_job
  = Placeholder.spec_substitute "2025-12-18_10-12-33"
      (render_output_path (settings sample_job)).
Proof.
  assert (Hne : "timestamp" <> "") by discriminate.
  do 5 (split; [first [reflexivity | exact Hne]|]).
  destruct (@placeholders_resolved sample_runtime sample_job) as [Hfirst Hflat].
  split.
  - exact (Hfirst "/proj/shot010/render/" "timestamp" "/Anim03_######"
                  eq_refl eq_refl Hne eq_refl).
  - exact (Hflat eq_refl).
Defined.

(** C3 as the specification has it fails on a template that opens a
    brace before the placeholder: the pattern matches from the first
    ["{"] up to the ["}"], the text between them is not [timestamp],
    and the occurrence of ["{timestamp}"] stays in the result. *)
Lemma nested_placeholder_not_substituted :
  Str.includes "{timestamp}" (render_output_path (settings sample_nested_job)) = true /\
  @renderOutputPath sample_runtime sample_nested_job
  = "/proj/{a{timestamp}/Anim03_######" /\
  Placeholder.spec_substitute (@formatTimestampLocal sample_runtime
                                 (created sample_nested_job))
                              (render_output_path (settings sample_nested_job))
  = "/proj/{a2025-12-18_10-12-33/Anim03_######" /\
  Str.includes "{timestamp}" (@renderOutputPath sample_runtime sample_nested_job) = true.
Proof. repeat split; vm_compute; reflexivity. Qed.

Lemma Forall2_right {A B : Type} (P : A -> B -> Prop) (Q : B -> Prop)
      (l : list A) (l' : list B) :
  (forall a b, P a b -> Q b) -> Forall2 P l l' -> Forall Q l'.
Proof.
  intros HPQ HP. induction HP; constructor; eauto.
Qed.

(** C2, amended.  The timestamp is the formatted creation time of the
    job, and the path is resolved once: a compilation that returns has
    stored the resolved path in the settings, and every new task has one
    command whose arguments are the same up to the chunk, with the
    resolved directory joined to the file name after
    ["--render-output"].  With [stable_directory] off the template is a
    directory text, ["{timestamp}/"] and a file name; when neither of
    the two nor the formatted time holds a ["{"], the resolved path is
    the template with the time in the place of the placeholder, and
    ["{timestamp}"] does not occur in it. *)
Theorem one_timestamp_per_job `{HostRuntime} (jt : JobType) (job job' : Job) :
  compileJob jt job = (Ok tt, job') ->
  let ts := formatTimestampLocal (created job) in
  let out := renderOutputPath job in
  out = Placeholder.replace (timestamp_replacer ts)
                            (render_output_path (settings job)) /\
  render_output_path (settings job') = out /\
  (exists front,
      Forall (fun t =>
                exists c chunk,
                  commands t = [c] /\
                  args c = (front ++
                            ["--render-output";
                             path_join (path_dirname out) (path_basename out);
                             "--render-format"; format (settings job);
                             "--render-frame"; chunk])%list)
             (new_tasks job job')) /\
  (forall dir file,
      render_output_path (settings job) = dir ++ "{timestamp}/" ++ file ->
      Str.has "{" dir = false -> Str.has "{" file = false ->
      Str.has "{" ts = false ->
      out = dir ++ ts ++ "/" ++ file /\ Str.includes "{timestamp}" out = false).
Proof.
  intros E ts out.
  apply compileJob_Ok in E as [_ [chunks [new [_ [Ha ->]]]]].
  split; [reflexivity|]. split; [reflexivity|]. split.
  - exists ((if String.eqb (scene (settings job)) "" then []
             else ["--scene"; scene (settings job)]) ++
            (if force_overwrite (settings job)
             then ["--python-expr"; overwrite_script] else []))%list.
    unfold new_tasks, compiled_job. cbn [tasks]. rewrite skipn_length_app.
    eapply Forall2_right; [|exact Ha]. cbv beta.
    intros chunk t [count [_ ->]].
    eexists. exists (Str.replaceAll_dash chunk). split; [reflexivity|].
    cbn [args task_of_chunk]. now rewrite <- List.app_assoc.
  - intros dir file Ht Hdir Hfile Hts.
    assert (Hout : out = dir ++ ts ++ "/" ++ file).
    { unfold out, renderOutputPath. fold ts. rewrite Ht.
      change (dir ++ "{timestamp}/" ++ file)
        with (dir ++ "{" ++ "timestamp" ++ "}" ++ ("/" ++ file)).
      rewrite replace_first_placeholder by (discriminate || assumption || reflexivity).
      unfold timestamp_replacer at 1. cbn [String.eqb].
      rewrite replace_no_open by exact Hfile. reflexivity. }
    split; [exact Hout|].
    destruct (Str.includes "{timestamp}" out) eqn:Ei; [|reflexivity].
    apply StrFacts.includes_has in Ei. rewrite Hout in Ei.
    rewrite !StrFacts.has_append, Hdir, Hts in Ei. simpl in Ei. congruence.
Qed.

Lemma one_timestamp_per_job_witness :
  @compileJob sample_runtime BeFrames_BlenderPath sample_job
  = (Ok tt, sample_job_compiled) /\
  render_output_path (settings sample_job)
  = "/proj/shot010/render/" ++ "{timestamp}/" ++ "Anim03_######" /\
  Str.has "{" "/proj/shot010/render/" = false /\
  Str.has "{" "Anim03_######" = false /\
  Str.has "{" (@formatTimestampLocal sample_runtime (created sample_job)) = false /\
  render_output_path (settings sample_job_compiled)
  = @renderOutputPath sample_runtime sample_job /\
  @renderOutputPath sample_runtime sample_job
  = "/proj/shot010/render/" ++ "2025-12-18_10-12-33" ++ "/" ++ "Anim03_######" /\
  Str.includes "{timestamp}" (@renderOutputPath sample_runtime sample_job) = false.
Proof.
  assert (E : @compileJob sample_runtime BeFrames_BlenderPath sample_job
              = (Ok tt, sample_job_compiled)) by (vm_compute; reflexivity).
  split; [exact E|]. do 4 (split; [reflexivity|]).
  destruct (@one_timestamp_per_job sample_runtime BeFrames_BlenderPath
              sample_job sample_job_compiled E) as [_ [Hstored [_ Hgone]]].
  split; [exact Hstored|].
  exact (Hgone "/proj/shot010/render/" "Anim03_######"
               eq_refl eq_refl eq_refl eq_refl).
Defined.

(** C2 as the specification has it fails for a scene that renders into
    a directory whose name holds a ["{"]: with [stable_directory] off
    the template of the BlenderPath job type is
    [/proj/{wip/{timestamp}/Anim03_######], the pattern matches
    [{wip/{timestamp}], and the compiled job and its tasks keep the
    placeholder. *)
Lemma placeholder_survives_brace_directory :
  stable_directory (settings sample_brace_job) = false /\
  @BlenderPathEval.render_output_path sample_brace_context false
  = render_output_path (settings sample_brace_job) /\
  fst (@compileJob sample_runtime BeFrames_BlenderPath sample_brace_job) = Ok tt /\
  render_output_path
    (settings (snd (@compileJob sample_runtime BeFrames_BlenderPath sample_brace_job)))
  = "/proj/{wip/{timestamp}/Anim03_######" /\
  Str.includes "{timestamp}" (@renderOutputPath sample_runtime sample_brace_job) = true.
Proof. repeat split; vm_compute; reflexivity. Qed.

(** ** The path expressions *)

Section PathlibFacts.
Import Pathlib.

Lemma split_on_pieces (sep : ascii) (s : string) :
  Forall (fun x => Str.has sep x = false) (Str.split_on sep s).
Proof.
  induction s as [|c s IH]; simpl.
  - repeat constructor.
  - destruct (Ascii.eqb c sep) eqn:E.
    + constructor; [reflexivity | exact IH].
    + destruct (Str.split_on sep s) as [|h t].
      * repeat constructor. simpl. now rewrite E.
      * inversion IH; subst. constructor; [|assumption].
        simpl. now rewrite E.
Qed.

Lemma split_on_whole (sep : ascii) (s : string) :
  Str.has sep s = false -> Str.split_on sep s = [s].
Proof.
  induction s as [|c s IH]; simpl; [reflexivity|].
  intros H. apply orb_false_iff in H as [Hc Hs].
  now rewrite Hc, (IH Hs).
Qed.

Lemma last_Forall {A : Type} (P : A -> Prop) (l : list A) (d : A) :
  Forall P l -> P d -> P (last l d).
Proof.
  intros Hl Hd. induction Hl as [|x l Hx Hl IH]; [exact Hd|].
  destruct l; [exact Hx | exact IH].
Qed.

Lemma Forall_filter {A : Type} (P : A -> Prop) (f : A -> bool) (l : list A) :
  Forall P l -> Forall P (filter f l).
Proof.
  intros Hl. induction Hl as [|x l Hx Hl IH]; simpl; [constructor|].
  destruct (f x); [constructor|]; assumption.
Qed.

(** A file name taken from a path holds no separator. *)
Lemma name_no_separator (s : string) :
  Str.has "/" (name (of_string s)) = false.
Proof.
  unfold name, of_string. destruct (splitroot s) as [r rel]. simpl.
  apply (last_Forall (fun x => Str.has "/" x = false)); [|reflexivity].
  apply Forall_filter, split_on_pieces.
Qed.

Lemma splitroot_relative (s : string) :
  Str.has "/" s = false -> splitroot s = ("", s).
Proof.
  destruct s as [|c s]; [reflexivity|]. simpl.
  intros H. apply orb_false_iff in H as [Hc _].
  apply Ascii.eqb_neq in Hc.
  destruct c as [[] [] [] [] [] [] [] []]; try reflexivity.
  now destruct Hc.
Qed.

(** The file name of the template is one relative component. *)
Lemma of_string_file (prefix : string) :
  Str.has "/" prefix = false ->
  of_string (prefix ++ "_######") = mkPath "" [prefix ++ "_######"].
Proof.
  intros Hp.
  assert (Hs : Str.has "/" (prefix ++ "_######") = false)
    by now rewrite StrFacts.has_append, Hp.
  unfold of_string. rewrite (splitroot_relative _ Hs), (split_on_whole _ _ Hs).
  simpl. unfold keep_part.
  assert (Hlen : 7 <= String.length (prefix ++ "_######"))
    by (rewrite StrFacts.length_append; simpl; lia).
  destruct (String.eqb_spec (prefix ++ "_######") "") as [E|_];
    [rewrite E in Hlen; simpl in Hlen; lia|].
  destruct (String.eqb_spec (prefix ++ "_######") ".") as [E|_];
    [rewrite E in Hlen; simpl in Hlen; lia|].
  reflexivity.
Qed.

Lemma Path_snoc (l : list PurePath) (q : PurePath) :
  root q = "" ->
  Path (l ++ [q]) = mkPath (root (Path l)) (parts (Path l) ++ parts q).
Proof.
  intros Hq. unfold Path. rewrite fold_left_app. simpl.
  unfold joinpath at 1. now rewrite Hq.
Qed.

Lemma Path_single (q : PurePath) : Path [q] = q.
Proof.
  unfold Path. simpl. unfold joinpath. simpl.
  destruct q as [r ps]. simpl.
  destruct (String.eqb_spec r "") as [->|_]; reflexivity.
Qed.

Lemma dir_text_app (a b : list string) :
  dir_text (a ++ b) = dir_text a ++ dir_text b.
Proof.
  induction a as [|x a IH]; simpl; [reflexivity|].
  now rewrite IH, !StrFacts.append_assoc.
Qed.

Lemma join_snoc (ps : list string) (f : string) :
  Str.join "/" (ps ++ [f]) = dir_text ps ++ f.
Proof.
  induction ps as [|x ps IH]; [reflexivity|].
  change ((x :: ps) ++ [f])%list with (x :: (ps ++ [f]))%list.
  cbn [Str.join dir_text]. rewrite IH.
  destruct (ps ++ [f])%list eqn:E.
  - now destruct ps.
  - now rewrite !StrFacts.append_assoc.
Qed.

(** The text of a path that ends in the component [f]. *)
Lemma str_snoc (r : string) (ps : list string) (f : string) :
  str (mkPath r (ps ++ [f])) = dir_prefix (mkPath r ps) ++ f.
Proof.
  unfold str, dir_prefix. cbn [root parts].
  rewrite StrFacts.append_assoc, <- join_snoc.
  destruct (ps ++ [f])%list eqn:E; [now destruct ps|].
  now destruct r.
Qed.

(** What [Path] makes of a base, an optional timestamp component and
    the file name. *)
Lemma template_parts (base : list PurePath) (stable : bool) (prefix : string) :
  Str.has "/" prefix = false ->
  Path (base ++
        (if stable then [] else [of_string "{timestamp}"]) ++
        [of_string (prefix ++ "_######")])
  = template_of (Path base) stable prefix.
Proof.
  intros Hp. rewrite (of_string_file _ Hp). unfold template_of. destruct stable.
  - cbn [app]. now rewrite Path_snoc by reflexivity.
  - rewrite List.app_assoc, Path_snoc by reflexivity. cbn [parts].
    rewrite Path_snoc by reflexivity. cbn [root parts of_string].
    now rewrite <- List.app_assoc.
Qed.

Lemma template_text (base : PurePath) (stable : bool) (prefix : string) :
  str (template_of base stable prefix)
  = dir_prefix base ++ (if stable then "" else "{timestamp}/") ++ prefix ++ "_######".
Proof.
  unfold template_of. destruct stable.
  - cbn [app]. now rewrite str_snoc.
  - rewrite List.app_assoc, str_snoc. unfold dir_prefix. cbn [root parts].
    rewrite dir_text_app. simpl. now rewrite !StrFacts.append_assoc.
Qed.

End PathlibFacts.

Lemma file_name_not_timestamp (prefix : string) :
  prefix ++ "_######" <> "{timestamp}".
Proof.
  intros E. apply (f_equal (Str.has "#")) in E.
  rewrite StrFacts.has_append in E. simpl in E.
  rewrite orb_true_r in E. discriminate.
Qed.

(** C1, amended.  In both job types the template is the text of a path
    whose components are those of a base directory, then
    ["{timestamp}"] exactly when [stable_directory] is off, then the
    file name [<prefix>_######], the prefix being the last component of
    the scene's output path, which holds no separator.  The base
    directory is the parent of the scene's output path in the
    BlenderPath job type, and the render root joined with the path
    components and the job name in the root-based one.  As a text the
    template is the base directory, ["{timestamp}/"] or nothing, and
    the file name.  So the flag decides the component that is inserted
    before the file name, and a template has a ["{timestamp}"]
    component exactly when the flag is off or the base directory has
    one of its own. *)
Theorem template_shape `{EvalContext} (stable : bool) :
  let filepath := Pathlib.of_string scene_render_filepath in
  let prefix := Pathlib.name filepath in
  Str.has "/" prefix = false /\
  BlenderPathEval.render_output_path stable
  = Pathlib.str (template_of (Pathlib.parent filepath) stable prefix) /\
  (forall (root : string) (n : Z),
      RootBasedEval.render_output_path root n stable
      = Pathlib.str
          (template_of
             (Pathlib.Path [abspath root; last_n_dir_parts n;
                            Pathlib.of_string jobname])
             stable prefix)) /\
  (forall base : Pathlib.PurePath,
      Pathlib.str (template_of base stable prefix)
      = Pathlib.dir_prefix base
        ++ (if stable then "" else "{timestamp}/") ++ prefix ++ "_######") /\
  (forall base : Pathlib.PurePath,
      In "{timestamp}" (Pathlib.parts (template_of base stable prefix)) <->
      stable = false \/ In "{timestamp}" (Pathlib.parts base)).
Proof.
  intros filepath prefix.
  assert (Hp : Str.has "/" prefix = false) by apply name_no_separator.
  split; [exact Hp|]. split; [|split; [|split]].
  - pose proof (template_parts [Pathlib.parent filepath] stable prefix Hp) as T.
    rewrite Path_single in T. rewrite <- T.
    unfold BlenderPathEval.render_output_path. now destruct stable.
  - intros root n. rewrite <- (template_parts _ stable prefix Hp).
    unfold RootBasedEval.render_output_path. now destruct stable.
  - intros base. apply template_text.
  - intros base. unfold template_of. cbn [Pathlib.parts].
    rewrite !in_app_iff. split.
    + intros [Hb | [Hi | Hf]].
      * now right.
      * destruct stable; [destruct Hi | now left].
      * destruct Hf as [Hf | []]. now apply file_name_not_timestamp in Hf.
    + intros [-> | Hb]; [right; left; now left | now left].
Qed.

(** C1 as the specification has it fails for a scene that renders into
    a folder named [{timestamp}]: with [stable_directory] on the
    template of the BlenderPath job type is
    [/proj/x/{timestamp}/Anim03_######], which has a timestamp
    component, and the job is resolved into a directory named after its
    creation time. *)
Lemma stable_template_with_timestamp_folder :
  stable_directory (settings sample_timestamp_folder_job) = true /\
  @BlenderPathEval.render_output_path sample_timestamp_folder_context true
  = "/proj/x/{timestamp}/Anim03_######" /\
  render_output_path (settings sample_timestamp_folder_job)
  = @BlenderPathEval.render_output_path sample_timestamp_folder_context true /\
  In "{timestamp}"
     (Pathlib.parts
        (Pathlib.of_string
           (@BlenderPathEval.render_output_path sample_timestamp_folder_context true))) /\
  @renderOutputPath sample_runtime sample_timestamp_folder_job
  = "/proj/x/2025-12-18_10-12-33/Anim03_######".
Proof. repeat split; vm_compute; auto. Qed.

(** ** Frame ranges *)

Section StringFacts.

Lemma all_has (P : ascii -> bool) (c : ascii) (s : string) :
  Str.all P s = true -> P c = false -> Str.has c s = false.
Proof.
  intros Hs Hc. induction s as [|d s IH]; [reflexivity|]. simpl in *.
  apply andb_true_iff in Hs as [Hd Hs]. rewrite (IH Hs), orb_false_r.
  destruct (Ascii.eqb_spec d c) as [->|_]; [congruence | reflexivity].
Qed.

Lemma digit_not_space (c : ascii) :
  Str.is_digit c = true -> Str.is_js_space c = false.
Proof.
  unfold Str.is_digit, Str.is_js_space. cbv zeta. intros H.
  apply andb_true_iff in H as [H1 H2].
  apply Nat.leb_le in H1. apply Nat.leb_le in H2.
  repeat rewrite orb_false_iff. repeat split.
  - apply andb_false_iff. right. apply Nat.leb_gt. lia.
  - apply Nat.eqb_neq. lia.
  - apply Nat.eqb_neq. lia.
Qed.

Lemma trimStart_id (s : string) :
  Str.all Str.is_digit s = true -> Str.trimStart s = s.
Proof.
  destruct s as [|c s]; [reflexivity|]. simpl. intros H.
  apply andb_true_iff in H as [Hc _].
  now rewrite (digit_not_space _ Hc).
Qed.

Lemma trimEnd_id (s : string) :
  Str.all Str.is_digit s = true -> Str.trimEnd s = s.
Proof.
  induction s as [|c s IH]; [reflexivity|]. simpl. intros H.
  apply andb_true_iff in H as [Hc Hs].
  rewrite (IH Hs), (digit_not_space _ Hc). now destruct s.
Qed.

Lemma trim_digits (s : string) :
  Str.all Str.is_digit s = true -> Str.trim s = s.
Proof.
  intros H. unfold Str.trim. rewrite (trimStart_id _ H). now apply trimEnd_id.
Qed.

Lemma split_on_append (sep : ascii) (x y : string) :
  Str.has sep x = false ->
  Str.split_on sep (x ++ String sep y) = x :: Str.split_on sep y.
Proof.
  induction x as [|c x IH]; simpl.
  - intros _. now rewrite Ascii.eqb_refl.
  - intros H. apply orb_false_iff in H as [Hc Hx].
    now rewrite Hc, (IH Hx).
Qed.

Lemma split_on_join (sep : ascii) (toks : list string) :
  toks <> [] -> Forall (fun t => Str.has sep t = false) toks ->
  Str.split_on sep (Str.join (String sep "") toks) = toks.
Proof.
  intros Hne Hall. induction Hall as [|t toks Ht Hall IH]; [congruence|].
  destruct toks as [|u toks].
  - simpl. now apply split_on_whole.
  - change (Str.join (String sep "") (t :: u :: toks))
      with (t ++ String sep (Str.join (String sep "") (u :: toks))).
    rewrite (split_on_append _ _ _ Ht). f_equal. apply IH. discriminate.
Qed.

End StringFacts.

Section NumberFacts.
Import FrameRange.

Lemma digits_of_uint (d : Decimal.uint) :
  Str.all Str.is_digit (NilEmpty.string_of_uint d) = true.
Proof. induction d; simpl; auto. Qed.

Lemma print_number_digits (n : nat) :
  Str.all Str.is_digit (print_number n) = true.
Proof.
  unfold print_number, NilZero.string_of_uint.
  destruct (Nat.to_uint n); try reflexivity; apply digits_of_uint.
Qed.

Lemma to_uint_nonnil (n : nat) : Nat.to_uint n <> Decimal.Nil.
Proof.
  rewrite <- (Unsigned.of_to n) at 1. rewrite Unsigned.to_of.
  apply unorm_nonnil.
Qed.

Lemma parse_print_number (n : nat) : parse_number (print_number n) = Some n.
Proof.
  unfold parse_number.
  rewrite (trim_digits _ (print_number_digits n)).
  unfold print_number. rewrite NilZero.usu by apply to_uint_nonnil.
  simpl. now rewrite Unsigned.of_to.
Qed.

Lemma print_number_free (c : ascii) (n : nat) :
  Str.is_digit c = false -> Str.has c (print_number n) = false.
Proof. intros Hc. exact (all_has _ _ _ (print_number_digits n) Hc). Qed.

Lemma print_range_no_comma (r : nat * nat) :
  Str.has "," (print_range r) = false.
Proof.
  unfold print_range. destruct (fst r =? snd r)%nat.
  - now apply print_number_free.
  - rewrite !StrFacts.has_append, !print_number_free by reflexivity. reflexivity.
Qed.

Lemma parse_print_range (a b : nat) :
  a <= b -> parse_token (print_range (a, b)) = Some (a, b).
Proof.
  intros Hab. unfold parse_token, print_range. cbn [fst snd].
  destruct (Nat.eqb_spec a b) as [<-|Hne].
  - rewrite split_on_whole by now apply print_number_free.
    now rewrite parse_print_number.
  - change (print_number a ++ "-" ++ print_number b)
      with (print_number a ++ String "-" (print_number b)).
    rewrite split_on_append by now apply print_number_free.
    rewrite split_on_whole by now apply print_number_free.
    rewrite !parse_print_number.
    apply Nat.leb_le in Hab. now rewrite Hab.
Qed.

Lemma parse_print_ranges (rs : list (nat * nat)) :
  Forall (fun r => fst r <= snd r) rs ->
  parse_tokens (map print_range rs) = Some rs.
Proof.
  intros H. induction H as [|[a b] rs Hab H IH]; [reflexivity|].
  cbn [map parse_tokens]. rewrite (parse_print_range a b Hab), IH. reflexivity.
Qed.

(** The runs of a list cover it, in order. *)
Lemma runs_expand (l : list nat) :
  flat_map expand (runs l) = l /\ Forall (fun r => fst r <= snd r) (runs l)
  /\ (forall x r, l = x :: r -> exists b t, runs l = (x, b) :: t).
Proof.
  induction l as [|x l [IHe [IHo IHh]]].
  - repeat split; [constructor | discriminate].
  - cbn [runs]. destruct (runs l) as [|[a b] t] eqn:E.
    + destruct l as [|y l].
      * repeat split.
        -- cbn [flat_map]. unfold expand. cbn [fst snd].
           replace (S x - x) with 1 by lia. reflexivity.
        -- repeat constructor.
        -- intros x' r [= <- <-]. now exists x, [].
      * destruct (IHh y l eq_refl) as [b [t Hr]]. discriminate.
    + pose proof (Forall_inv IHo) as Hab. pose proof (Forall_inv_tail IHo) as Ht.
      cbn [fst snd] in Hab.
      destruct (Nat.eqb_spec a (S x)) as [->|Hne].
      * repeat split.
        -- rewrite <- IHe. cbn [flat_map]. unfold expand. cbn [fst snd].
           replace (S b - x) with (S (S b - S x)) by lia. reflexivity.
        -- constructor; [cbn [fst snd]; lia | assumption].
        -- intros x' r [= <- <-]. now exists b, t.
      * repeat split.
        -- rewrite <- IHe. cbn [flat_map]. unfold expand at 1. cbn [fst snd].
           replace (S x - x) with 1 by lia. reflexivity.
        -- constructor; [cbn [fst snd]; lia | assumption].
        -- intros x' r [= <- <-]. now exists x, ((a, b) :: t).
Qed.

Lemma runs_nonempty (l : list nat) : l <> [] -> runs l <> [].
Proof.
  destruct l as [|x l]; [congruence|]. intros _.
  destruct (runs_expand (x :: l)) as [_ [_ Hh]].
  destruct (Hh x l eq_refl) as [b [t ->]]. discriminate.
Qed.

End NumberFacts.

Section ChunkFacts.
Import FrameRange.

Lemma insert_Forall (P : nat -> Prop) (x : nat) (l : list nat) :
  P x -> Forall P l -> Forall P (insert x l).
Proof.
  intros Hx Hl. induction Hl as [|y l Hy Hl IH]; simpl.
  - now repeat constructor.
  - destruct (x <? y)%nat; [now repeat constructor|].
    destruct (x =? y)%nat; now constructor.
Qed.

Lemma insert_ascending (x : nat) (l : list nat) :
  StronglySorted lt l -> StronglySorted lt (insert x l).
Proof.
  intros Hl. induction Hl as [|y l Hl IH Hy]; simpl.
  - repeat constructor.
  - destruct (Nat.ltb_spec x y) as [Hlt|Hge].
    + constructor; [now constructor|].
      constructor; [assumption|].
      eapply Forall_impl; [|exact Hy]. cbv beta. intros z Hz. lia.
    + destruct (Nat.eqb_spec x y) as [->|Hne]; [now constructor|].
      constructor; [assumption|].
      apply insert_Forall; [lia | assumption].
Qed.

Lemma normalize_ascending (l : list nat) : StronglySorted lt (normalize l).
Proof.
  induction l as [|x l IH]; simpl; [constructor | now apply insert_ascending].
Qed.

Lemma normalize_id (l : list nat) : StronglySorted lt l -> normalize l = l.
Proof.
  intros Hl. induction Hl as [|x l Hl IH Hx]; [reflexivity|].
  simpl. rewrite IH. destruct Hx as [|y l Hy _]; [reflexivity|].
  simpl. apply Nat.ltb_lt in Hy. now rewrite Hy.
Qed.

Lemma ascending_app (a b : list nat) :
  StronglySorted lt (a ++ b) -> StronglySorted lt a /\ StronglySorted lt b.
Proof.
  induction a as [|x a IH]; simpl; intros H.
  - split; [constructor | assumption].
  - apply StronglySorted_inv in H as [H Hx].
    destruct (IH H) as [Ha Hb]. split; [|assumption].
    constructor; [assumption|].
    apply Forall_app in Hx. tauto.
Qed.

Lemma ascending_groups (groups : list (list nat)) :
  StronglySorted lt (concat groups) -> Forall (StronglySorted lt) groups.
Proof.
  induction groups as [|g groups IH]; simpl; intros H; [constructor|].
  apply ascending_app in H as [Hg H]. constructor; auto.
Qed.

(** A group of ascending frames is read back from its expression. *)
Lemma parse_print_frames (g : list nat) :
  g <> [] -> StronglySorted lt g -> parse_frames (print_frames g) = Some g.
Proof.
  intros Hne Hg. unfold parse_frames, print_frames.
  destruct (runs_expand g) as [He [Ho _]].
  rewrite (split_on_join "," (map print_range (runs g))).
  - rewrite (parse_print_ranges _ Ho), He. now rewrite normalize_id.
  - intros E. apply map_eq_nil in E. now apply runs_nonempty in E.
  - apply Forall_map, Forall_forall. intros r _. apply print_range_no_comma.
Qed.

Section Chunks.
Variable n : nat.
Hypothesis n_pos : 1 <= n.

Lemma chunks_of_concat (fuel : nat) (l : list nat) :
  List.length l <= fuel -> concat (chunks_of fuel n l) = l.
Proof.
  revert l; induction fuel as [|fuel IH]; intros l Hl.
  - destruct l; simpl in *; [reflexivity | lia].
  - destruct l as [|x l]; [reflexivity|].
    cbn [chunks_of concat]. rewrite IH; [apply firstn_skipn|].
    rewrite length_skipn. cbn [List.length] in *. lia.
Qed.

Lemma chunks_of_sizes (fuel : nat) (l : list nat) :
  Forall (fun g => 1 <= List.length g <= n) (chunks_of fuel n l).
Proof.
  revert l; induction fuel as [|fuel IH]; intros l; [constructor|].
  destruct l as [|x l]; [constructor|].
  cbn [chunks_of]. constructor; [|apply IH].
  rewrite length_firstn. cbn [List.length]. lia.
Qed.

(** Every group but the last is full. *)
Lemma chunks_of_full (fuel : nat) (l : list nat) (i : nat) :
  List.length l <= fuel ->
  S i < List.length (chunks_of fuel n l) ->
  List.length (nth i (chunks_of fuel n l) []) = n.
Proof.
  revert l i; induction fuel as [|fuel IH]; intros l i Hl Hi.
  - simpl in Hi. lia.
  - destruct l as [|x l]; [simpl in Hi; lia|].
    cbn [chunks_of] in *. cbn [List.length] in Hi.
    assert (Hskip : List.length (skipn n (x :: l)) <= fuel)
      by (rewrite length_skipn; cbn [List.length] in *; lia).
    destruct i as [|i].
    + cbn [nth]. rewrite length_firstn.
      destruct (skipn n (x :: l)) as [|y r] eqn:E.
      * destruct fuel; simpl in Hi; lia.
      * assert (List.length (skipn n (x :: l)) = S (List.length r))
          by now rewrite E.
        rewrite length_skipn in H. lia.
    + cbn [nth]. apply IH; [assumption | lia].
Qed.

End Chunks.

End ChunkFacts.

Lemma for_of_images {A B C : Type} (l : list C) (img : C -> A)
      (body : A -> result B) (f : C -> B) :
  Forall (fun g => body (img g) = Ok (f g)) l ->
  for_of (map img l) body = Ok (map f l).
Proof.
  intros H. induction H as [|g l Hg H IH]; [reflexivity|].
  simpl. rewrite Hg. simpl. rewrite IH. reflexivity.
Qed.

Lemma Forall2_images {A B : Type} (P : A -> B -> Prop) (f : A -> B) (l : list A) :
  (forall a, P a (f a)) -> Forall2 P l (map f l).
Proof. intros H. induction l; simpl; constructor; auto. Qed.

(** C4.  With the chunker of the specification: for a frame-range
    expression that parses to the frames [fs] and a chunk size of at
    least 1, [frameChunker] returns the expressions of groups of frames
    whose concatenation is [fs], which ascends without a repeated
    frame; every group holds between 1 and [chunk_size] frames and
    every group but the last holds exactly [chunk_size]; every
    expression reads back as its group; and [authorRenderTasks] returns
    one task per group, in order, named after the expression, whose
    command carries the number of frames of the group.  Frames ["1-5"]
    in chunks of 2 give ["1-2"], ["3-4"] and ["5"], of 2, 2 and 1
    frames. *)
Theorem chunks_partition_frames (fmt : Z -> string) (s : Settings)
        (renderDir renderOutput : string) (fs : list nat) :
  FrameRange.parse_frames (frames s) = Some fs ->
  (1 <= chunk_size s)%Z ->
  let n := Z.to_nat (chunk_size s) in
  exists groups,
    FrameRange.frameChunker (frames s) (chunk_size s)
    = Ok (map FrameRange.print_frames groups) /\
    concat groups = fs /\
    StronglySorted lt fs /\
    Forall (fun g => 1 <= List.length g <= n) groups /\
    (forall i, S i < List.length groups -> List.length (nth i groups []) = n) /\
    Forall (fun g => FrameRange.parse_frames (FrameRange.print_frames g) = Some g)
           groups /\
    (exists ts,
        @authorRenderTasks (SpecHost.runtime fmt) s renderDir renderOutput = Ok ts /\
        Forall2 (fun g t =>
                   task_name t = "render-" ++ FrameRange.print_frames g /\
                   map frame_count (commands t) = [List.length g])
                groups ts) /\
    FrameRange.frameChunker "1-5" 2 = Ok ["1-2"; "3-4"; "5"] /\
    map FrameRange.frameCount ["1-2"; "3-4"; "5"] = [Ok 2; Ok 2; Ok 1].
Proof.
  intros Hparse Hsize n.
  assert (Hn : 1 <= n) by (unfold n; lia).
  set (groups := FrameRange.chunks_of (List.length fs) n fs).
  assert (Hchunker : FrameRange.frameChunker (frames s) (chunk_size s)
                     = Ok (map FrameRange.print_frames groups)).
  { unfold FrameRange.frameChunker. rewrite Hparse.
    destruct (Z.leb_spec (chunk_size s) 0) as [Hle|_]; [lia | reflexivity]. }
  assert (Hconcat : concat groups = fs)
    by (apply chunks_of_concat; [exact Hn | apply Nat.le_refl]).
  assert (Hasc : StronglySorted lt fs).
  { unfold FrameRange.parse_frames in Hparse.
    destruct (FrameRange.parse_tokens _); [|discriminate].
    injection Hparse as <-. apply normalize_ascending. }
  assert (Hsizes : Forall (fun g => 1 <= List.length g <= n) groups)
    by (apply chunks_of_sizes; exact Hn).
  assert (Hback : Forall (fun g => FrameRange.parse_frames (FrameRange.print_frames g)
                                   = Some g) groups).
  { assert (Hg : Forall (StronglySorted lt) groups)
      by (apply ascending_groups; now rewrite Hconcat).
    apply Forall_forall. intros g Hin.
    rewrite Forall_forall in Hg, Hsizes.
    apply parse_print_frames; [|now apply Hg].
    intros ->. specialize (Hsizes [] Hin). simpl in Hsizes. lia. }
  exists groups. repeat split; try assumption.
  - intros i Hi. apply chunks_of_full; [exact Hn | apply Nat.le_refl | exact Hi].
  - unfold authorRenderTasks. cbn [frameChunker frameCount SpecHost.runtime].
    rewrite Hchunker. cbn [bind].
    eexists. split.
    + apply (for_of_images groups FrameRange.print_frames _
               (fun g => @task_of_chunk (SpecHost.runtime fmt) s renderDir renderOutput
                                        (FrameRange.print_frames g) (List.length g))).
      eapply Forall_impl; [|exact Hback]. cbv beta. intros g Hg.
      unfold FrameRange.frameCount. rewrite Hg. cbn [bind].
      unfold task_of_chunk, addCommand, author_Task, baseArgs, overwriteArgs.
      simpl. now rewrite truthy_eqb.
    + apply Forall2_images. intros g. split; reflexivity.
Qed.

Lemma chunks_partition_frames_witness :
  FrameRange.parse_frames (frames sample_settings) = Some [1; 2; 3; 4; 5] /\
  (1 <= chunk_size sample_settings)%Z /\
  exists groups,
    FrameRange.frameChunker (frames sample_settings) (chunk_size sample_settings)
    = Ok (map FrameRange.print_frames groups) /\
    concat groups = [1; 2; 3; 4; 5] /\
    Forall (fun g => 1 <= List.length g <= 2) groups.
Proof.
  assert (Hparse : FrameRange.parse_frames (frames sample_settings)
                   = Some [1; 2; 3; 4; 5]) by reflexivity.
  assert (Hsize : (1 <= chunk_size sample_settings)%Z) by (simpl; lia).
  split; [exact Hparse|]. split; [exact Hsize|].
  destruct (chunks_partition_frames (fun _ => "2025-12-18_10-12-33") sample_settings
              "/proj/shot010/render" "/proj/shot010/render/Anim03_######"
              [1; 2; 3; 4; 5] Hparse Hsize)
    as [groups [Hchunks [Hconcat [_ [Hsizes _]]]]].
  exists groups. repeat split; assumption.
Defined.

Lemma root_present (r : string) :
  Str.trim r <> "" -> RootBased.root_missing (Some r) = false.
Proof.
  intros Hr. unfold RootBased.root_missing, truthy.
  destruct (String.eqb_spec r "") as [->|_]; [now destruct Hr|].
  now destruct (String.eqb_spec (Str.trim r) "").
Qed.

(** C8, amended.  With the chunker of the specification: a job whose
    chunk size is zero or less, whose format is not a video format and
    whose render output root is not blank when the job type is the
    root-based one, fails with InvalidChunkSize, whatever its
    frame-range expression, and holds the tasks it held before. *)
Theorem nonpositive_chunk_size_rejected (fmt : Z -> string) (jt : JobType)
        (job : Job) :
  (chunk_size (settings job) <= 0)%Z ->
  ~ In (format (settings job)) videoFormats ->
  (jt = BeFrames_RootBased ->
   exists r, render_output_root (settings job) = Some r /\ Str.trim r <> "") ->
  fst (@compileJob (SpecHost.runtime fmt) jt job) = Throw InvalidChunkSize /\
  tasks (snd (@compileJob (SpecHost.runtime fmt) jt job)) = tasks job.
Proof.
  intros Hsize Hformat Hroot.
  assert (Hv : array_includes videoFormats (format (settings job)) = false).
  { destruct (array_includes videoFormats (format (settings job))) eqn:E;
      [|reflexivity].
    apply array_includes_In in E. contradiction. }
  assert (HB : @BlenderPath.compileJob (SpecHost.runtime fmt) job
               = (Throw InvalidChunkSize,
                  set_settings job
                    (set_render_output_path (settings job)
                       (@renderOutputPath (SpecHost.runtime fmt) job)))).
  { unfold BlenderPath.compileJob. rewrite Hv. cbv zeta.
    unfold authorRenderTasks.
    cbn [frameChunker SpecHost.runtime settings set_settings
         frames chunk_size set_render_output_path].
    unfold FrameRange.frameChunker.
    apply Z.leb_le in Hsize. rewrite Hsize. reflexivity. }
  destruct jt; cbn [compileJob].
  - rewrite HB. split; reflexivity.
  - rewrite rootbased_unfold, Hv.
    destruct (Hroot eq_refl) as [r [Hr Ht]].
    rewrite Hr, (root_present _ Ht), HB. split; reflexivity.
Qed.

Lemma nonpositive_chunk_size_rejected_witness :
  (chunk_size (settings sample_zero_chunk_job) <= 0)%Z /\
  ~ In (format (settings sample_zero_chunk_job)) videoFormats /\
  (exists r, render_output_root (settings sample_zero_chunk_job) = Some r /\
             Str.trim r <> "") /\
  fst (@compileJob sample_runtime BeFrames_RootBased sample_zero_chunk_job)
  = Throw InvalidChunkSize /\
  tasks (snd (@compileJob sample_runtime BeFrames_RootBased sample_zero_chunk_job))
  = tasks sample_zero_chunk_job.
Proof.
  assert (Hsize : (chunk_size (settings sample_zero_chunk_job) <= 0)%Z)
    by (simpl; lia).
  assert (Hformat : ~ In (format (settings sample_zero_chunk_job)) videoFormats).
  { simpl. intros [E | [E | [E | []]]]; discriminate E. }
  assert (Hroot : exists r, render_output_root (settings sample_zero_chunk_job)
                            = Some r /\ Str.trim r <> "").
  { exists "/farm". split; [reflexivity | discriminate]. }
  do 3 (split; [assumption|]).
  exact (nonpositive_chunk_size_rejected (fun _ => "2025-12-18_10-12-33")
           BeFrames_RootBased sample_zero_chunk_job
           Hsize Hformat (fun _ => Hroot)).
Defined.

(** C8 as the specification has it fails for a job that is refused
    before its frames are chunked: with a chunk size of zero and the
    format FFMPEG both job types throw the unsupported-format message,
    not InvalidChunkSize. *)
Lemma zero_chunk_video_job_rejected_as_video :
  (chunk_size (settings sample_zero_chunk_video_job) <= 0)%Z /\
  fst (@compileJob sample_runtime BeFrames_BlenderPath sample_zero_chunk_video_job)
  = Throw (ThrowString video_message) /\
  fst (@compileJob sample_runtime BeFrames_RootBased sample_zero_chunk_video_job)
  = Throw (ThrowString video_message) /\
  fst (@compileJob sample_runtime BeFrames_BlenderPath sample_zero_chunk_video_job)
  <> Throw InvalidChunkSize /\
  fst (@compileJob sample_runtime BeFrames_RootBased sample_zero_chunk_video_job)
  <> Throw InvalidChunkSize.
Proof.
  split; [simpl; lia|].
  repeat split; vm_compute; congruence.
Qed.

(** ** The examples of the specification *)

Example scene_relative_stable :
  @BlenderPathEval.render_output_path sample_context true
  = "/proj/shot010/render/Anim03_######" /\
  SpecHost.dirname "/proj/shot010/render/Anim03_######" = "/proj/shot010/render".
Proof. split; reflexivity. Qed.

Example root_relative_timestamped :
  @RootBasedEval.render_output_path sample_context "/farm" 2 false
  = "/farm/projects/shotA/MyJob/{timestamp}/Anim03_######".
Proof. reflexivity. Qed.

Example sample_job_tasks :
  map task_name (tasks sample_job_compiled)
  = ["render-1-2"; "render-3-4"; "render-5"] /\
  map (fun t => map frame_count (commands t)) (tasks sample_job_compiled)
  = [[2]; [2]; [1]] /\
  map (fun t => map (fun c => last (args c) "") (commands t))
      (tasks sample_job_compiled)
  = [["1..2"]; ["3..4"]; ["5"]].
Proof. repeat split; reflexivity. Qed.

(** * Further properties of the compilers *)

Section ResolutionFacts.
Import Placeholder.

Variable ts : string.

Lemma includes_tail (p a b : string) :
  Str.includes p (a ++ b) = false -> Str.includes p b = false.
Proof.
  induction a as [|c a IH]; [trivial|]. simpl.
  intros H. apply orb_false_iff in H as [_ H]. now apply IH.
Qed.

Lemma includes_cons (p : string) (c : ascii) (r : string) :
  Str.includes p (String c r) = false ->
  Str.starts_with p (String c r) = false /\ Str.includes p r = false.
Proof. simpl. intros H. now apply orb_false_iff in H. Qed.

(** A template that does not hold the text ["{timestamp}"] holds no
    placeholder that is replaced. *)
Lemma replace_without_timestamp_bounded (n : nat) (s : string) :
  String.length s <= n ->
  Str.includes "{timestamp}" s = false ->
  replace (timestamp_replacer ts) s = s.
Proof.
  revert s; induction n as [|n IH]; intros s Hn Hs.
  { destruct s; simpl in Hn; [reflexivity | lia]. }
  destruct s as [|c r]; [reflexivity|]. simpl in Hn.
  destruct (includes_cons _ _ _ Hs) as [Hstart Hr].
  destruct (Ascii.eqb c "{") eqn:Ec.
  - apply Ascii.eqb_eq in Ec; subst c.
    destruct (until_close r) as [[key rest]|] eqn:E.
    + destruct (until_close_spec _ _ _ E) as [Hkr Hkey].
      destruct (string_dec key "") as [-> | Hne].
      * rewrite replace_no_match by (right; now exists rest).
        f_equal. apply IH; [lia | assumption].
      * rewrite (replace_match _ _ _ _ E Hne). unfold timestamp_replacer.
        destruct (String.eqb_spec key "timestamp") as [-> | Hk].
        -- rewrite Hkr in Hstart. discriminate Hstart.
        -- assert (Hrest : Str.includes "{timestamp}" rest = false).
           { apply (includes_tail _ (key ++ "}")).
             now rewrite StrFacts.append_assoc, <- Hkr. }
           rewrite IH; [| |exact Hrest].
           ++ rewrite Hkr. simpl. f_equal. now rewrite StrFacts.append_assoc.
           ++ rewrite Hkr, StrFacts.length_append in Hn. simpl in Hn. lia.
    + rewrite replace_no_match by now left.
      f_equal. apply IH; [lia | assumption].
  - rewrite (replace_other _ _ _ Ec). f_equal. apply IH; [lia | assumption].
Qed.

Lemma replace_no_close (f : string -> string -> string) (s : string) :
  Str.has "}" s = false -> replace f s = s.
Proof.
  induction s as [|c r IH]; [reflexivity|]. simpl.
  intros H. apply orb_false_iff in H as [_ Hr].
  destruct (Ascii.eqb c "{") eqn:Ec.
  - apply Ascii.eqb_eq in Ec; subst c.
    rewrite replace_no_match by (left; now apply until_close_none).
    now rewrite (IH Hr).
  - now rewrite (replace_other _ _ _ Ec), (IH Hr).
Qed.

(** Resolving a resolved template changes nothing, when the formatted
    time opens no brace. *)
Lemma replace_twice_bounded (n : nat) (s : string) :
  Str.has "{" ts = false ->
  String.length s <= n ->
  replace (timestamp_replacer ts) (replace (timestamp_replacer ts) s)
  = replace (timestamp_replacer ts) s.
Proof.
  intros Hts. revert s; induction n as [|n IH]; intros s Hn.
  { destruct s; simpl in Hn; [reflexivity | lia]. }
  destruct s as [|c r]; [reflexivity|]. simpl in Hn.
  destruct (Ascii.eqb c "{") eqn:Ec.
  - apply Ascii.eqb_eq in Ec; subst c.
    destruct (until_close r) as [[key rest]|] eqn:E.
    + destruct (until_close_spec _ _ _ E) as [Hkr Hkey].
      assert (Hlen : String.length rest <= n).
      { rewrite Hkr, StrFacts.length_append in Hn. simpl in Hn. lia. }
      destruct (string_dec key "") as [-> | Hne].
      * rewrite replace_no_match by (right; now exists rest).
        simpl in Hkr. subst r.
        rewrite (replace_other _ "}"%char rest eq_refl).
        rewrite replace_no_match by (right; eexists; reflexivity).
        f_equal.
        rewrite <- (replace_other (timestamp_replacer ts) "}"%char rest eq_refl).
        apply IH. simpl. simpl in Hn. lia.
      * rewrite (replace_match _ _ _ _ E Hne).
        unfold timestamp_replacer at 2 4.
        destruct (String.eqb key "timestamp") eqn:Ek.
        -- rewrite (replace_prefix_no_open _ _ _ Hts). now rewrite IH.
        -- assert (Heq : ("{" ++ key ++ "}") ++ replace (timestamp_replacer ts) rest
                          = String "{" (key ++ String "}"
                                              (replace (timestamp_replacer ts) rest)))
             by (simpl; now rewrite StrFacts.append_assoc).
           rewrite Heq at 1.
           rewrite (replace_match _ _ key (replace (timestamp_replacer ts) rest));
             [|now apply until_close_append | assumption].
           unfold timestamp_replacer at 1. rewrite Ek. now rewrite IH.
    + rewrite replace_no_match by now left.
      apply until_close_none in E.
      rewrite (replace_no_close _ _ E).
      rewrite replace_no_match by (left; now apply until_close_none).
      now rewrite (replace_no_close _ _ E).
  - rewrite (replace_other _ _ _ Ec), (replace_other _ _ _ Ec).
    f_equal. apply IH. lia.
Qed.

End ResolutionFacts.

Section CompilationFacts.
Context `{HostRuntime}.

Lemma set_render_output_path_same (s : Settings) :
  set_render_output_path s (render_output_path s) = s.
Proof. now destruct s. Qed.

Lemma set_render_output_path_twice (s : Settings) (p q : string) :
  set_render_output_path (set_render_output_path s p) q = set_render_output_path s q.
Proof. reflexivity. Qed.

(** [compileJob], with its checks gathered and its loop over
    [addTask] carried out. *)
Lemma compileJob_unfold (jt : JobType) (job : Job) :
  compileJob jt job =
  if passes_checks jt (settings job) then
    match authorRenderTasks
            (set_render_output_path (settings job) (renderOutputPath job))
            (path_dirname (renderOutputPath job)) (renderOutputPath job) with
    | Throw e =>
        (Throw e,
         set_settings job (set_render_output_path (settings job) (renderOutputPath job)))
    | Ok ts => (Ok tt, compiled_job job ts)
    end
  else
    (Throw (ThrowString
              (if array_includes videoFormats (format (settings job))
               then video_message else root_message)),
     job).
Proof.
  assert (HB : BlenderPath.compileJob job =
               if array_includes videoFormats (format (settings job))
               then (Throw (ThrowString video_message), job)
               else
                 match authorRenderTasks
                         (set_render_output_path (settings job) (renderOutputPath job))
                         (path_dirname (renderOutputPath job)) (renderOutputPath job) with
                 | Throw e =>
                     (Throw e,
                      set_settings job (set_render_output_path (settings job)
                                                               (renderOutputPath job)))
                 | Ok ts => (Ok tt, compiled_job job ts)
                 end).
  { unfold BlenderPath.compileJob.
    destruct (array_includes videoFormats (format (settings job))); [reflexivity|].
    cbv zeta. cbn [settings set_settings].
    destruct (authorRenderTasks _ _ _) as [ts|e]; [|reflexivity].
    now rewrite fold_addTask. }
  unfold passes_checks. destruct jt; cbn [compileJob].
  - rewrite HB. now destruct (array_includes videoFormats (format (settings job))).
  - rewrite rootbased_unfold, HB.
    destruct (array_includes videoFormats (format (settings job))); [reflexivity|].
    now destruct (RootBased.root_missing (render_output_root (settings job))).
Qed.

Lemma passes_checks_spec (jt : JobType) (s : Settings) :
  passes_checks jt s = true <->
  ~ In (format s) videoFormats /\
  (jt = BeFrames_RootBased ->
   exists r, render_output_root s = Some r /\ Str.trim r <> "").
Proof.
  unfold passes_checks. rewrite andb_true_iff, negb_true_iff. split.
  - intros [Hv Hr]. split.
    + intros Hin. apply array_includes_In in Hin. congruence.
    + intros ->. apply negb_true_iff in Hr.
      destruct (render_output_root s) as [r|]; [|discriminate].
      exists r. split; [reflexivity|]. intros Ht.
      unfold RootBased.root_missing in Hr. rewrite Ht in Hr.
      rewrite orb_true_r in Hr. discriminate.
  - intros [Hv Hr]. split.
    + destruct (array_includes videoFormats (format s)) eqn:E; [|reflexivity].
      apply array_includes_In in E. contradiction.
    + destruct jt; [reflexivity|].
      destruct (Hr eq_refl) as [r [-> Ht]]. now rewrite (root_present _ Ht).
Qed.

Lemma for_of_Ok_iff {A B : Type} (l : list A) (body : A -> result B) :
  (exists bs, for_of l body = Ok bs) <->
  Forall (fun a => exists b, body a = Ok b) l.
Proof.
  induction l as [|a l IH]; simpl.
  - split; [constructor | now exists []].
  - split.
    + intros [bs E]. destruct (body a) as [b|e] eqn:Ea; [|discriminate].
      simpl in E. destruct (for_of l body) as [bs'|e] eqn:El; [|discriminate].
      constructor; [now exists b | apply IH; now exists bs'].
    + intros Hl. inversion Hl as [|? ? [b Hb] Hl']; subst.
      apply IH in Hl' as [bs Hbs]. rewrite Hb, Hbs. simpl. now eexists.
Qed.

Lemma for_of_first_throw {A B : Type} (l1 l2 : list A) (a : A)
      (body : A -> result B) (e : thrown) :
  Forall (fun x => exists b, body x = Ok b) l1 ->
  body a = Throw e ->
  for_of (l1 ++ a :: l2) body = Throw e.
Proof.
  intros Hl Ha. induction Hl as [|x l1 [b Hb] Hl IH]; simpl.
  - now rewrite Ha.
  - now rewrite Hb, IH.
Qed.

(** The body of the loop of [authorRenderTasks] returns when
    [frameCount] does, and throws what [frameCount] throws. *)
Lemma authorRenderTasks_run (s : Settings) (dir out : string) :
  authorRenderTasks s dir out =
  match frameChunker (frames s) (chunk_size s) with
  | Throw e => Throw e
  | Ok chunks =>
      for_of chunks (fun chunk =>
                       match frameCount chunk with
                       | Ok count => Ok (task_of_chunk s dir out chunk count)
                       | Throw e => Throw e
                       end)
  end.
Proof.
  unfold authorRenderTasks.
  destruct (frameChunker (frames s) (chunk_size s)) as [chunks|e]; [|reflexivity].
  cbn [bind]. induction chunks as [|c chunks IH]; [reflexivity|].
  cbn [for_of]. rewrite IH.
  destruct (frameCount c) as [count|e]; [|reflexivity]. cbn [bind].
  unfold task_of_chunk, addCommand, author_Task, baseArgs, overwriteArgs.
  cbn [task_name task_type commands app]. now rewrite truthy_eqb.
Qed.

End CompilationFacts.

(** X1.  A template that does not hold the text ["{timestamp}"] is
    resolved to itself, whatever other braces it holds and whatever the
    creation time of the job. *)
Theorem template_without_timestamp_unchanged `{HostRuntime} (job : Job) :
  Str.includes "{timestamp}" (render_output_path (settings job)) = false ->
  renderOutputPath job = render_output_path (settings job).
Proof.
  intros Hs. unfold renderOutputPath.
  eapply replace_without_timestamp_bounded; [apply Nat.le_refl | exact Hs].
Qed.

Lemma template_without_timestamp_unchanged_witness :
  Str.includes "{timestamp}" (render_output_path (settings sample_stable_job)) = false /\
  @renderOutputPath sample_runtime sample_stable_job
  = "/proj/shot010/{take}/Anim03_######".
Proof.
  split; [reflexivity|].
  apply (@template_without_timestamp_unchanged sample_runtime sample_stable_job).
  reflexivity.
Defined.

(** X2.  Compiling a compiled job again resolves the same path and
    adds the same tasks a second time, when the formatted creation time
    opens no brace: the resolved path that [compileJob] has written over
    the template resolves to itself. *)
Theorem recompilation_repeats `{HostRuntime} (jt : JobType) (job job' : Job) :
  compileJob jt job = (Ok tt, job') ->
  Str.has "{" (formatTimestampLocal (created job)) = false ->
  renderOutputPath job' = renderOutputPath job /\
  exists job'',
    compileJob jt job' = (Ok tt, job'') /\
    settings job'' = settings job' /\
    new_tasks job' job'' = new_tasks job job'.
Proof.
  intros E Hts. rewrite compileJob_unfold in E.
  destruct (passes_checks jt (settings job)) eqn:Hp; [|discriminate].
  destruct (authorRenderTasks _ _ _) as [ts|e] eqn:Ea; [|discriminate].
  injection E as <-.
  assert (Hro : renderOutputPath (compiled_job job ts) = renderOutputPath job).
  { unfold renderOutputPath, compiled_job. cbn [settings created render_output_path
                                                 set_render_output_path].
    unfold renderOutputPath.
    eapply replace_twice_bounded; [exact Hts | apply Nat.le_refl]. }
  split; [exact Hro|].
  exists (compiled_job (compiled_job job ts) ts). split; [|split].
  - rewrite compileJob_unfold, Hro.
    change (settings (compiled_job job ts))
      with (set_render_output_path (settings job) (renderOutputPath job)).
    rewrite set_render_output_path_twice.
    change (passes_checks jt (set_render_output_path (settings job)
                                                     (renderOutputPath job)))
      with (passes_checks jt (settings job)).
    now rewrite Hp, Ea.
  - unfold compiled_job at 1. cbn [settings]. now rewrite Hro.
  - unfold new_tasks, compiled_job. cbn [tasks]. now rewrite !skipn_length_app.
Qed.

Lemma recompilation_repeats_witness :
  @compileJob sample_runtime BeFrames_BlenderPath sample_job
  = (Ok tt, sample_job_compiled) /\
  Str.has "{" (@formatTimestampLocal sample_runtime (created sample_job)) = false /\
  @renderOutputPath sample_runtime sample_job_compiled
  = @renderOutputPath sample_runtime sample_job /\
  exists job'',
    @compileJob sample_runtime BeFrames_BlenderPath sample_job_compiled
    = (Ok tt, job'') /\
    settings job'' = settings sample_job_compiled /\
    new_tasks sample_job_compiled job'' = new_tasks sample_job sample_job_compiled.
Proof.
  assert (E : @compileJob sample_runtime BeFrames_BlenderPath sample_job
              = (Ok tt, sample_job_compiled)) by (vm_compute; reflexivity).
  split; [exact E|]. split; [reflexivity|].
  exact (@recompilation_repeats sample_runtime BeFrames_BlenderPath
           sample_job sample_job_compiled E eq_refl).
Defined.

(** X3.  Whatever the outcome of a compilation, the job keeps its name
    and creation time, and its settings change in [render_output_path]
    only: it keeps the template when a check refuses the job, and holds
    the resolved path once the checks have passed, also when the
    authoring of the tasks throws afterwards. *)
Theorem settings_after_compilation `{HostRuntime} (jt : JobType) (job : Job) :
  job_name (snd (compileJob jt job)) = job_name job /\
  created (snd (compileJob jt job)) = created job /\
  settings (snd (compileJob jt job))
  = set_render_output_path
      (settings job)
      (if passes_checks jt (settings job)
       then renderOutputPath job
       else render_output_path (settings job)).
Proof.
  rewrite compileJob_unfold.
  destruct (passes_checks jt (settings job)).
  - destruct (authorRenderTasks _ _ _); repeat split; reflexivity.
  - cbn [snd]. rewrite set_render_output_path_same. repeat split; reflexivity.
Qed.

(** X4.  A compilation returns exactly when the format is not a video
    format, the render output root is not blank in the root-based job
    type, [frameChunker] returns, and [frameCount] returns on every
    chunk. *)
Theorem compilation_succeeds_iff `{HostRuntime} (jt : JobType) (job : Job) :
  fst (compileJob jt job) = Ok tt <->
  (~ In (format (settings job)) videoFormats /\
   (jt = BeFrames_RootBased ->
    exists r, render_output_root (settings job) = Some r /\ Str.trim r <> "")) /\
  exists chunks,
    frameChunker (frames (settings job)) (chunk_size (settings job)) = Ok chunks /\
    Forall (fun chunk => exists count, frameCount chunk = Ok count) chunks.
Proof.
  rewrite <- passes_checks_spec, compileJob_unfold, authorRenderTasks_run.
  cbn [frames chunk_size set_render_output_path].
  destruct (passes_checks jt (settings job)).
  2:{ split; [discriminate | intros [Hf _]; discriminate]. }
  destruct (frameChunker (frames (settings job)) (chunk_size (settings job)))
    as [chunks|e].
  2:{ split; [discriminate | intros [_ [chunks [Hc _]]]; discriminate]. }
  set (body := fun chunk : string => _).
  assert (Hbody : forall c, (exists t, body c = Ok t) <-> (exists n, frameCount c = Ok n)).
  { intros c. unfold body. destruct (frameCount c) as [n|e].
    - split; intros _; eexists; reflexivity.
    - split; intros [x Hx]; discriminate. }
  assert (Hall : Forall (fun c => exists t, body c = Ok t) chunks <->
                 Forall (fun c => exists n, frameCount c = Ok n) chunks).
  { rewrite !Forall_forall. split; intros Hx c Hin; apply Hbody, Hx, Hin. }
  rewrite <- for_of_Ok_iff in Hall.
  destruct (for_of chunks body) as [tasks|e] eqn:Ef.
  - split; [|reflexivity]. intros _. split; [reflexivity|].
    exists chunks. split; [reflexivity|]. apply Hall. now exists tasks.
  - split; [discriminate|]. intros [_ [chunks' [[= <-] Hok]]].
    apply Hall in Hok as [tasks Ht]. discriminate.
Qed.

(** X5.  When the checks pass and [frameChunker] throws, the
    compilation throws the same value; the job then holds the resolved
    path and no new task. *)
Theorem chunker_error_propagates `{HostRuntime} (jt : JobType) (job : Job)
        (e : thrown) :
  passes_checks jt (settings job) = true ->
  frameChunker (frames (settings job)) (chunk_size (settings job)) = Throw e ->
  compileJob jt job
  = (Throw e,
     mkJob (job_name job) (created job)
           (set_render_output_path (settings job) (renderOutputPath job))
           (tasks job)).
Proof.
  intros Hp He. rewrite compileJob_unfold, Hp, authorRenderTasks_run.
  cbn [frames chunk_size set_render_output_path]. now rewrite He.
Qed.

Lemma chunker_error_propagates_witness :
  passes_checks BeFrames_RootBased (settings sample_job) = true /\
  @frameChunker sample_failing_runtime (frames (settings sample_job))
                (chunk_size (settings sample_job))
  = Throw (HostError "no frames") /\
  @compileJob sample_failing_runtime BeFrames_RootBased sample_job
  = (Throw (HostError "no frames"),
     mkJob (job_name sample_job) (created sample_job)
           (set_render_output_path (settings sample_job)
              (@renderOutputPath sample_failing_runtime sample_job))
           (tasks sample_job)).
Proof.
  split; [reflexivity|]. split; [reflexivity|].
  apply (@chunker_error_propagates sample_failing_runtime BeFrames_RootBased
           sample_job); reflexivity.
Defined.

(** X6.  When the checks pass and [frameChunker] returns, the
    compilation throws what [frameCount] throws on the first chunk it
    cannot count, whatever the chunks behind it; the job then holds the
    resolved path and no new task, not even for the chunks before. *)
Theorem first_uncounted_chunk_reported `{HostRuntime} (jt : JobType) (job : Job)
        (before after : list string) (chunk : string) (e : thrown) :
  passes_checks jt (settings job) = true ->
  frameChunker (frames (settings job)) (chunk_size (settings job))
  = Ok (before ++ chunk :: after)%list ->
  Forall (fun c => exists count, frameCount c = Ok count) before ->
  frameCount chunk = Throw e ->
  compileJob jt job
  = (Throw e,
     mkJob (job_name job) (created job)
           (set_render_output_path (settings job) (renderOutputPath job))
           (tasks job)).
Proof.
  intros Hp Hc Hbefore He. rewrite compileJob_unfold, Hp, authorRenderTasks_run.
  cbn [frames chunk_size set_render_output_path]. rewrite Hc.
  rewrite (for_of_first_throw before after chunk _ e); [reflexivity| |].
  - eapply Forall_impl; [|exact Hbefore]. cbv beta.
    intros c [count ->]. now eexists.
  - now rewrite He.
Qed.

Lemma first_uncounted_chunk_reported_witness :
  passes_checks BeFrames_BlenderPath (settings sample_job) = true /\
  @frameChunker sample_faulty_runtime (frames (settings sample_job))
                (chunk_size (settings sample_job))
  = Ok (["1-2"] ++ "3-" :: ["5"])%list /\
  Forall (fun c => exists count, @frameCount sample_faulty_runtime c = Ok count)
         ["1-2"] /\
  @frameCount sample_faulty_runtime "3-" = Throw MalformedFrameRange /\
  @compileJob sample_faulty_runtime BeFrames_BlenderPath sample_job
  = (Throw MalformedFrameRange,
     mkJob (job_name sample_job) (created sample_job)
           (set_render_output_path (settings sample_job)
              (@renderOutputPath sample_faulty_runtime sample_job))
           (tasks sample_job)).
Proof.
  assert (Hbefore : Forall (fun c => exists count,
                                @frameCount sample_faulty_runtime c = Ok count)
                           ["1-2"]).
  { constructor; [|constructor]. exists 2. reflexivity. }
  split; [reflexivity|]. split; [reflexivity|]. split; [exact Hbefore|].
  split; [reflexivity|].
  exact (@first_uncounted_chunk_reported sample_faulty_runtime BeFrames_BlenderPath
           sample_job ["1-2"] ["5"] "3-" MalformedFrameRange
           eq_refl eq_refl Hbefore eq_refl).
Defined.

Lemma NoDup_map_prefix (p : string) (l : list string) :
  NoDup l -> NoDup (map (fun c => p ++ c) l).
Proof.
  assert (Hinj : forall a b, p ++ a = p ++ b -> a = b).
  { induction p as [|c p IH]; intros a b E; [exact E|].
    injection E as E. now apply IH. }
  intros Hl. induction Hl as [|x l Hx Hl IH]; simpl; constructor; [|exact IH].
  intros Hin. apply in_map_iff in Hin as [y [Hy Hin]].
  apply Hinj in Hy. now subst.
Qed.

Lemma authored_names `{HostRuntime} (s : Settings) (dir out : string)
      (chunks : list string) (ts : list Task) :
  authored s dir out chunks ts ->
  map task_name ts = map (fun c => "render-" ++ c) chunks.
Proof.
  unfold authored. intros Ha.
  induction Ha as [|c t chunks ts [count [_ ->]] Ha IH]; [reflexivity|].
  simpl. now f_equal.
Qed.

(** X7.  The tasks a compilation adds are named [render-<chunk>];
    when the chunks [frameChunker] returned are pairwise different, so
    are the names of the new tasks. *)
Theorem task_names_distinct `{HostRuntime} (jt : JobType) (job job' : Job)
        (chunks : list string) :
  compileJob jt job = (Ok tt, job') ->
  frameChunker (frames (settings job)) (chunk_size (settings job)) = Ok chunks ->
  NoDup chunks ->
  map task_name (new_tasks job job') = map (fun c => "render-" ++ c) chunks /\
  NoDup (map task_name (new_tasks job job')).
Proof.
  intros E Hc Hnd.
  apply compileJob_Ok in E as [_ [chunks' [ts [Hc' [Ha ->]]]]].
  rewrite Hc in Hc'. injection Hc' as <-.
  assert (Hnames : map task_name (new_tasks job (compiled_job job ts))
                   = map (fun c => "render-" ++ c) chunks).
  { unfold new_tasks, compiled_job. cbn [tasks]. rewrite skipn_length_app.
    exact (authored_names _ _ _ _ _ Ha). }
  split; [exact Hnames|]. rewrite Hnames. now apply NoDup_map_prefix.
Qed.

Lemma task_names_distinct_witness :
  @compileJob sample_runtime BeFrames_BlenderPath sample_job
  = (Ok tt, sample_job_compiled) /\
  @frameChunker sample_runtime (frames (settings sample_job))
                (chunk_size (settings sample_job))
  = Ok ["1-2"; "3-4"; "5"] /\
  NoDup ["1-2"; "3-4"; "5"] /\
  map task_name (new_tasks sample_job sample_job_compiled)
  = ["render-1-2"; "render-3-4"; "render-5"] /\
  NoDup (map task_name (new_tasks sample_job sample_job_compiled)).
Proof.
  assert (E : @compileJob sample_runtime BeFrames_BlenderPath sample_job
              = (Ok tt, sample_job_compiled)) by (vm_compute; reflexivity).
  assert (Hnd : NoDup ["1-2"; "3-4"; "5"]).
  { repeat constructor; simpl; intuition discriminate. }
  split; [exact E|]. split; [reflexivity|]. split; [exact Hnd|].
  exact (@task_names_distinct sample_runtime BeFrames_BlenderPath sample_job
           sample_job_compiled ["1-2"; "3-4"; "5"] E eq_refl Hnd).
Defined.

Lemma append_cancel_l (a x y : string) : a ++ x = a ++ y -> x = y.
Proof.
  induction a as [|c a IH]; intros E; [exact E|].
  injection E as E. now apply IH.
Qed.

Lemma append_cancel_r (x y b : string) : x ++ b = y ++ b -> x = y.
Proof.
  revert y; induction x as [|c x IH]; intros y E.
  - destruct y as [|d y]; [reflexivity|].
    apply (f_equal String.length) in E.
    simpl in E. rewrite StrFacts.length_append in E. lia.
  - destruct y as [|d y].
    + apply (f_equal String.length) in E.
      simpl in E. rewrite StrFacts.length_append in E. lia.
    + injection E as -> E. f_equal. now apply IH.
Qed.

(** X8.  With the template of a timestamped directory, a directory
    text, ["{timestamp}/"] and a file name that hold no ["{"], two jobs
    whose creation times are formatted differently are resolved to
    different paths. *)
Theorem timestamps_separate_outputs `{HostRuntime} (j1 j2 : Job) (dir file : string) :
  render_output_path (settings j1) = dir ++ "{timestamp}/" ++ file ->
  render_output_path (settings j2) = dir ++ "{timestamp}/" ++ file ->
  Str.has "{" dir = false ->
  Str.has "{" file = false ->
  formatTimestampLocal (created j1) <> formatTimestampLocal (created j2) ->
  renderOutputPath j1 <> renderOutputPath j2.
Proof.
  intros H1 H2 Hdir Hfile Hts.
  assert (Hout : forall j, render_output_path (settings j) = dir ++ "{timestamp}/" ++ file ->
                           renderOutputPath j
                           = dir ++ formatTimestampLocal (created j) ++ "/" ++ file).
  { intros j Hj. unfold renderOutputPath. rewrite Hj.
    change (dir ++ "{timestamp}/" ++ file)
      with (dir ++ "{" ++ "timestamp" ++ "}" ++ ("/" ++ file)).
    rewrite replace_first_placeholder by (discriminate || assumption || reflexivity).
    unfold timestamp_replacer at 1. cbn [String.eqb].
    rewrite replace_no_open by exact Hfile. reflexivity. }
  rewrite (Hout j1 H1), (Hout j2 H2). intros E.
  apply append_cancel_l in E. apply append_cancel_r in E. contradiction.
Qed.

Lemma timestamps_separate_outputs_witness :
  render_output_path (settings sample_job)
  = "/proj/shot010/render/" ++ "{timestamp}/" ++ "Anim03_######" /\
  render_output_path (settings sample_job_later)
  = "/proj/shot010/render/" ++ "{timestamp}/" ++ "Anim03_######" /\
  Str.has "{" "/proj/shot010/render/" = false /\
  Str.has "{" "Anim03_######" = false /\
  @formatTimestampLocal sample_clock_runtime (created sample_job)
  <> @formatTimestampLocal sample_clock_runtime (created sample_job_later) /\
  @renderOutputPath sample_clock_runtime sample_job
  <> @renderOutputPath sample_clock_runtime sample_job_later.
Proof.
  assert (Hts : @formatTimestampLocal sample_clock_runtime (created sample_job)
                <> @formatTimestampLocal sample_clock_runtime (created sample_job_later))
    by (vm_compute; discriminate).
  do 4 (split; [reflexivity|]). split; [exact Hts|].
  exact (@timestamps_separate_outputs sample_clock_runtime sample_job sample_job_later
           "/proj/shot010/render/" "Anim03_######"
           eq_refl eq_refl eq_refl eq_refl Hts).
Defined.

Section TrimFacts.

Lemma trimEnd_empty (s : string) :
  Str.trimEnd s = "" <-> Str.all Str.is_js_space s = true.
Proof.
  induction s as [|c s IH]; simpl; [tauto|].
  destruct (Str.trimEnd s) as [|d r] eqn:E.
  - destruct (Str.is_js_space c); simpl.
    + split; intros _; [now apply IH | reflexivity].
    + split; discriminate.
  - split; [discriminate|]. intros H. apply andb_true_iff in H as [_ H].
    apply IH in H. discriminate.
Qed.

Lemma trimStart_spaces (s : string) :
  Str.all Str.is_js_space s = true -> Str.trimStart s = "".
Proof.
  induction s as [|c s IH]; simpl; [reflexivity|].
  intros H. apply andb_true_iff in H as [Hc Hs]. now rewrite Hc, (IH Hs).
Qed.

Lemma trimStart_all (s : string) :
  Str.all Str.is_js_space (Str.trimStart s) = true ->
  Str.all Str.is_js_space s = true.
Proof.
  induction s as [|c s IH]; simpl; [reflexivity|].
  destruct (Str.is_js_space c) eqn:Ec; simpl.
  - exact IH.
  - rewrite Ec. discriminate.
Qed.

(** A string is trimmed to nothing exactly when it is made of white
    space. *)
Lemma trim_empty (s : string) :
  String.eqb (Str.trim s) "" = Str.all Str.is_js_space s.
Proof.
  unfold Str.trim.
  destruct (Str.all Str.is_js_space s) eqn:E.
  - rewrite (trimStart_spaces _ E). reflexivity.
  - apply String.eqb_neq. intros Ht. apply trimEnd_empty in Ht.
    apply trimStart_all in Ht. congruence.
Qed.

End TrimFacts.

(** X9.  The root-based compiler refuses a job whose format is not a
    video format exactly when its render output root is missing or made
    of white space only, the empty string included; with any other root
    it does what the BlenderPath compiler does. *)
Theorem root_check_then_blenderpath `{HostRuntime} (job : Job) :
  RootBased.compileJob job =
  if array_includes videoFormats (format (settings job))
  then (Throw (ThrowString video_message), job)
  else
    match render_output_root (settings job) with
    | None => (Throw (ThrowString root_message), job)
    | Some r =>
        if Str.all Str.is_js_space r
        then (Throw (ThrowString root_message), job)
        else BlenderPath.compileJob job
    end.
Proof.
  rewrite rootbased_unfold.
  destruct (array_includes videoFormats (format (settings job))); [reflexivity|].
  destruct (render_output_root (settings job)) as [r|]; [|reflexivity].
  unfold RootBased.root_missing. rewrite trim_empty.
  destruct (Str.all Str.is_js_space r) eqn:E; [now rewrite orb_true_r|].
  rewrite orb_false_r. unfold truthy.
  destruct (String.eqb_spec r "") as [->|_]; [discriminate E | reflexivity].
Qed.

(** X10.  Two chunks that hold no ["."] and get the same
    [--render-frame] argument are the same chunk.  (Without the
    condition they need not be: ["-"] and [".."] both become [".."].) *)
Theorem render_frame_argument_injective (a b : string) :
  Str.has "." a = false ->
  Str.has "." b = false ->
  Str.replaceAll_dash a = Str.replaceAll_dash b ->
  a = b.
Proof.
  revert b; induction a as [|c a IH]; intros b Ha Hb E.
  - destruct b as [|d b]; [reflexivity|]. simpl in E.
    destruct (Ascii.eqb d "-"); discriminate.
  - destruct b as [|d b].
    + simpl in E. destruct (Ascii.eqb c "-"); discriminate.
    + simpl in Ha, Hb.
      apply orb_false_iff in Ha as [Hc Ha]. apply orb_false_iff in Hb as [Hd Hb].
      simpl in E.
      destruct (Ascii.eqb_spec c "-") as [->|Hcd];
        destruct (Ascii.eqb_spec d "-") as [->|Hdd].
      * injection E as E. f_equal. now apply IH.
      * injection E as <- _. now rewrite Ascii.eqb_refl in Hd.
      * injection E as -> _. now rewrite Ascii.eqb_refl in Hc.
      * injection E as -> E. f_equal. now apply IH.
Qed.

Lemma render_frame_argument_injective_witness :
  Str.has "." "3,5-7" = false /\
  Str.has "." "3,5-7" = false /\
  Str.replaceAll_dash "3,5-7" = Str.replaceAll_dash "3,5-7" /\
  "3,5-7" = "3,5-7".
Proof.
  do 3 (split; [reflexivity|]).
  exact (render_frame_argument_injective "3,5-7" "3,5-7" eq_refl eq_refl eq_refl).
Defined.

Section EvalFacts.
Import Pathlib.

(** [splitroot] by the tests it makes on the first three characters. *)
Lemma splitroot_tests (p : string) :
  splitroot p =
  match p with
  | String a r =>
      if Ascii.eqb a "/" then
        match r with
        | String b r2 =>
            if Ascii.eqb b "/" then
              match r2 with
              | String d _ => if Ascii.eqb d "/" then ("/", r) else ("//", r2)
              | EmptyString => ("//", r2)
              end
            else ("/", r)
        | EmptyString => ("/", r)
        end
      else ("", p)
  | EmptyString => ("", p)
  end.
Proof.
  destruct p as [|a r]; [reflexivity|].
  destruct (Ascii.eqb_spec a "/") as [->|Ha].
  - destruct r as [|b r2]; [reflexivity|].
    destruct (Ascii.eqb_spec b "/") as [->|Hb].
    + destruct r2 as [|d r3]; [reflexivity|].
      destruct (Ascii.eqb_spec d "/") as [->|Hd]; [reflexivity|].
      destruct d as [[] [] [] [] [] [] [] []]; try reflexivity. now destruct Hd.
    + destruct b as [[] [] [] [] [] [] [] []]; try reflexivity. now destruct Hb.
  - destruct a as [[] [] [] [] [] [] [] []]; try reflexivity. now destruct Ha.
Qed.

(** The root is [""], ["/"] or ["//"], and the rest is an end of the
    path. *)
Lemma splitroot_rest (p : string) :
  (fst (splitroot p) = "" \/ fst (splitroot p) = "/" \/ fst (splitroot p) = "//") /\
  exists pre, p = pre ++ snd (splitroot p).
Proof.
  rewrite splitroot_tests.
  destruct p as [|a r]; [split; [auto | now exists ""]|].
  destruct (Ascii.eqb_spec a "/") as [->|_]; [|split; [auto | now exists ""]].
  destruct r as [|b r2]; [split; [auto | now exists "/"]|].
  destruct (Ascii.eqb_spec b "/") as [->|_]; [|split; [auto | now exists "/"]].
  destruct r2 as [|d r3]; [split; [auto | now exists "//"]|].
  destruct (Ascii.eqb d "/"); (split; [auto|]); [now exists "/" | now exists "//"].
Qed.

Lemma split_on_keeps (c sep : ascii) (s : string) :
  Str.has c s = false ->
  Forall (fun x => Str.has c x = false) (Str.split_on sep s).
Proof.
  induction s as [|d s IH]; simpl; intros H.
  - repeat constructor.
  - apply orb_false_iff in H as [Hd Hs]. specialize (IH Hs).
    destruct (Ascii.eqb d sep).
    + constructor; [reflexivity | exact IH].
    + destruct (Str.split_on sep s) as [|h t].
      * repeat constructor. simpl. now rewrite Hd.
      * inversion IH; subst. constructor; [|assumption].
        simpl. now rewrite Hd.
Qed.

Lemma Forall_removelast {A : Type} (P : A -> Prop) (l : list A) :
  Forall P l -> Forall P (removelast l).
Proof.
  intros H. induction H as [|x l Hx Hl IH]; [constructor|].
  simpl. destruct l; [constructor | now constructor].
Qed.

Lemma dir_text_keeps (c : ascii) (l : list string) :
  Ascii.eqb "/" c = false ->
  Forall (fun x => Str.has c x = false) l -> Str.has c (dir_text l) = false.
Proof.
  intros Hc H. induction H as [|x l Hx Hl IH]; [reflexivity|].
  cbn [dir_text]. rewrite !StrFacts.has_append, Hx, IH.
  cbn [Str.has]. now rewrite Hc.
Qed.

(** A character other than ["/"] that the scene's output path does not
    hold is in neither the directory nor the file name taken from it. *)
Lemma of_string_keeps (c : ascii) (s : string) :
  Ascii.eqb "/" c = false ->
  Str.has c s = false ->
  Str.has c (dir_prefix (parent (of_string s))) = false /\
  Str.has c (name (of_string s)) = false.
Proof.
  intros Hc Hs. unfold of_string.
  destruct (splitroot_rest s) as [Hroot [pre Hpre]].
  destruct (splitroot s) as [r rel]. cbn [fst snd] in *.
  assert (Hrel : Str.has c rel = false).
  { rewrite Hpre, StrFacts.has_append in Hs. now apply orb_false_iff in Hs. }
  assert (Hparts : Forall (fun x => Str.has c x = false)
                          (filter keep_part (Str.split_on "/" rel)))
    by now apply Forall_filter, split_on_keeps.
  split.
  - unfold dir_prefix, parent. cbn [root parts].
    rewrite StrFacts.has_append.
    rewrite (dir_text_keeps c _ Hc (Forall_removelast _ _ Hparts)), orb_false_r.
    destruct Hroot as [-> | [-> | ->]]; cbn [Str.has]; now rewrite ?Hc.
  - unfold name. cbn [parts].
    now apply (last_Forall (fun x => Str.has c x = false)).
Qed.

Lemma blenderpath_template_text `{EvalContext} (stable : bool) :
  BlenderPathEval.render_output_path stable
  = dir_prefix (parent (of_string scene_render_filepath))
    ++ (if stable then "" else "{timestamp}/")
    ++ name (of_string scene_render_filepath) ++ "_######".
Proof.
  rewrite <- template_text.
  pose proof (template_parts [parent (of_string scene_render_filepath)] stable
                (name (of_string scene_render_filepath))
                (name_no_separator _)) as T.
  rewrite Path_single in T. rewrite <- T.
  unfold BlenderPathEval.render_output_path. now destruct stable.
Qed.

End EvalFacts.

(** X11.  A BlenderPath job submitted with [stable_directory] on, from
    a scene whose output path holds no ["{"], is resolved to its
    template whatever its creation time; submitted again later with the
    same settings it gets the same output path, the same outcome and
    the same tasks. *)
Theorem stable_directory_same_output `{HostRuntime} `{EvalContext} (j1 j2 : Job) :
  Str.has "{" scene_render_filepath = false ->
  render_output_path (settings j1) = BlenderPathEval.render_output_path true ->
  settings j2 = settings j1 ->
  renderOutputPath j1 = render_output_path (settings j1) /\
  renderOutputPath j2 = renderOutputPath j1 /\
  fst (compileJob BeFrames_BlenderPath j2) = fst (compileJob BeFrames_BlenderPath j1) /\
  new_tasks j2 (snd (compileJob BeFrames_BlenderPath j2))
  = new_tasks j1 (snd (compileJob BeFrames_BlenderPath j1)).
Proof.
  intros Hfp Htpl Hs.
  assert (Hopen : Str.has "{" (render_output_path (settings j1)) = false).
  { rewrite Htpl, blenderpath_template_text.
    destruct (of_string_keeps "{" scene_render_filepath eq_refl Hfp) as [Hd Hn].
    now rewrite !StrFacts.has_append, Hd, Hn. }
  assert (H1 : renderOutputPath j1 = render_output_path (settings j1))
    by (unfold renderOutputPath; now apply replace_no_open).
  assert (H2 : renderOutputPath j2 = renderOutputPath j1).
  { rewrite H1. unfold renderOutputPath. rewrite Hs. now apply replace_no_open. }
  split; [exact H1|]. split; [exact H2|].
  rewrite !compileJob_unfold, H2, Hs.
  destruct (passes_checks BeFrames_BlenderPath (settings j1)).
  - destruct (authorRenderTasks _ _ _) as [ts|e]; cbn [fst snd].
    + split; [reflexivity|].
      unfold new_tasks, compiled_job. cbn [tasks]. now rewrite !skipn_length_app.
    + split; [reflexivity|].
      unfold new_tasks, set_settings. cbn [tasks]. now rewrite !skipn_all.
  - cbn [fst snd]. split; [reflexivity|].
    unfold new_tasks. now rewrite !skipn_all.
Qed.

Lemma stable_directory_same_output_witness :
  Str.has "{" (@scene_render_filepath sample_context) = false /\
  render_output_path (settings sample_stable_first)
  = @BlenderPathEval.render_output_path sample_context true /\
  settings sample_stable_second = settings sample_stable_first /\
  @renderOutputPath sample_clock_runtime sample_stable_first
  = "/proj/shot010/render/Anim03_######" /\
  @renderOutputPath sample_clock_runtime sample_stable_second
  = @renderOutputPath sample_clock_runtime sample_stable_first /\
  fst (@compileJob sample_clock_runtime BeFrames_BlenderPath sample_stable_second)
  = fst (@compileJob sample_clock_runtime BeFrames_BlenderPath sample_stable_first) /\
  new_tasks sample_stable_second
            (snd (@compileJob sample_clock_runtime BeFrames_BlenderPath
                              sample_stable_second))
  = new_tasks sample_stable_first
              (snd (@compileJob sample_clock_runtime BeFrames_BlenderPath
                                sample_stable_first)).
Proof.
  do 3 (split; [reflexivity|]).
  apply (@stable_directory_same_output sample_clock_runtime sample_context
           sample_stable_first sample_stable_second); reflexivity.
Defined.

Section TrailingSlash.
Import Pathlib.

Lemma split_on_trailing (sep : ascii) (s : string) :
  Str.split_on sep (s ++ String sep "") = (Str.split_on sep s ++ [""])%list.
Proof.
  induction s as [|c s IH]; simpl.
  - now rewrite Ascii.eqb_refl.
  - rewrite IH. destruct (Ascii.eqb c sep); [reflexivity|].
    destruct (Str.split_on sep s) as [|h t] eqn:E; [|reflexivity].
    destruct s as [|d s]; simpl in E; [discriminate|].
    destruct (Ascii.eqb d sep); [discriminate|].
    destruct (Str.split_on sep s); discriminate.
Qed.

Lemma splitroot_trailing (p : string) :
  p <> "" -> p <> "/" -> p <> "//" ->
  splitroot (p ++ "/") = (fst (splitroot p), snd (splitroot p) ++ "/").
Proof.
  intros H0 H1 H2. rewrite !splitroot_tests.
  destruct p as [|a [|b [|d r]]]; cbn [append fst snd]; [congruence| | |].
  - destruct (Ascii.eqb_spec a "/") as [->|_]; [congruence | reflexivity].
  - destruct (Ascii.eqb_spec a "/") as [->|_]; [|reflexivity].
    destruct (Ascii.eqb_spec b "/") as [->|_]; [congruence | reflexivity].
  - destruct (Ascii.eqb a "/"); [|reflexivity].
    destruct (Ascii.eqb b "/"); [|reflexivity].
    destruct (Ascii.eqb d "/"); reflexivity.
Qed.

(** A path that ends in one more ["/"] is the same path. *)
Lemma of_string_trailing (p : string) :
  p <> "" -> p <> "/" -> p <> "//" -> of_string (p ++ "/") = of_string p.
Proof.
  intros H0 H1 H2. unfold of_string. rewrite (splitroot_trailing p H0 H1 H2).
  destruct (splitroot p) as [r rel]. cbn [fst snd].
  rewrite split_on_trailing, filter_app. simpl. now rewrite List.app_nil_r.
Qed.

End TrailingSlash.

(** X12.  A ["/"] at the end of the scene's output path changes
    neither template: the last folder of the path gives the prefix of
    the file names, and the frames go beside that folder, not into it.
    (The paths [""], ["/"] and ["//"] are left aside: there the
    ["/"] changes the root.) *)
Theorem trailing_slash_ignored (filepath name : string)
        (abspathf : string -> Pathlib.PurePath)
        (last_n : Z -> Pathlib.PurePath) (stable : bool) (root : string) (n : Z) :
  filepath <> "" -> filepath <> "/" -> filepath <> "//" ->
  @BlenderPathEval.render_output_path
     (Build_EvalContext (filepath ++ "/") name abspathf last_n) stable
  = @BlenderPathEval.render_output_path
      (Build_EvalContext filepath name abspathf last_n) stable /\
  @RootBasedEval.render_output_path
     (Build_EvalContext (filepath ++ "/") name abspathf last_n) root n stable
  = @RootBasedEval.render_output_path
      (Build_EvalContext filepath name abspathf last_n) root n stable.
Proof.
  intros H0 H1 H2.
  unfold BlenderPathEval.render_output_path, RootBasedEval.render_output_path.
  cbn [scene_render_filepath jobname abspath last_n_dir_parts].
  rewrite (of_string_trailing filepath H0 H1 H2). split; reflexivity.
Qed.

Lemma trailing_slash_ignored_witness :
  "/renders/shot010" <> "" /\ "/renders/shot010" <> "/" /\ "/renders/shot010" <> "//" /\
  @BlenderPathEval.render_output_path
     (Build_EvalContext ("/renders/shot010" ++ "/") "MyJob" Pathlib.of_string
                        (fun _ => Pathlib.mkPath "" [])) true
  = "/renders/shot010_######".
Proof.
  assert (H0 : "/renders/shot010" <> "") by discriminate.
  assert (H1 : "/renders/shot010" <> "/") by discriminate.
  assert (H2 : "/renders/shot010" <> "//") by discriminate.
  do 3 (split; [assumption|]).
  destruct (trailing_slash_ignored "/renders/shot010" "MyJob" Pathlib.of_string
              (fun _ => Pathlib.mkPath "" []) true "/farm" 0 H0 H1 H2) as [E _].
  rewrite E. reflexivity.
Defined.

(** X13.  Every task a compilation adds is of type [blender] and holds
    one command, [blender-render], on the blend file of the settings,
    whose executable and executable arguments are the variables
    [{blender}] and [{blenderArgs}], left for the manager to resolve:
    the resolution of the output path does not reach them. *)
Theorem new_tasks_run_blender `{HostRuntime} (jt : JobType) (job job' : Job) :
  compileJob jt job = (Ok tt, job') ->
  Forall (fun t =>
            task_type t = "blender" /\
            exists c,
              commands t = [c] /\
              cmd_name c = "blender-render" /\
              exe c = "{blender}" /\
              exeArgs c = "{blenderArgs}" /\
              cmd_blendfile c = blendfile (settings job))
         (new_tasks job job').
Proof.
  intros E. apply compileJob_Ok in E as [_ [chunks [ts [_ [Ha ->]]]]].
  unfold new_tasks, compiled_job. cbn [tasks]. rewrite skipn_length_app.
  eapply Forall2_right; [|exact Ha]. cbv beta.
  intros chunk t [count [_ ->]]. split; [reflexivity|].
  eexists. repeat split; reflexivity.
Qed.

Lemma new_tasks_run_blender_witness :
  @compileJob sample_runtime BeFrames_BlenderPath sample_job
  = (Ok tt, sample_job_compiled) /\
  Forall (fun t =>
            task_type t = "blender" /\
            exists c,
              commands t = [c] /\
              cmd_name c = "blender-render" /\
              exe c = "{blender}" /\
              exeArgs c = "{blenderArgs}" /\
              cmd_blendfile c = blendfile (settings sample_job))
         (new_tasks sample_job sample_job_compiled).
Proof.
  assert (E : @compileJob sample_runtime BeFrames_BlenderPath sample_job
              = (Ok tt, sample_job_compiled)) by (vm_compute; reflexivity).
  split; [exact E|].
  exact (@new_tasks_run_blender sample_runtime BeFrames_BlenderPath
           sample_job sample_job_compiled E).
Defined.

Section RootedJobName.
Import Pathlib.

Lemma of_string_rooted (s : string) :
  Str.starts_with "/" s = true -> String.eqb (root (of_string s)) "" = false.
Proof.
  intros Hs. apply StrFacts.starts_with_inv in Hs as [r ->].
  unfold of_string. rewrite splitroot_tests. cbn [append].
  cbn [Ascii.eqb Bool.eqb andb].
  destruct r as [|b r2]; [reflexivity|].
  destruct (Ascii.eqb b "/"); [|reflexivity].
  destruct r2 as [|d r3]; [reflexivity|].
  destruct (Ascii.eqb d "/"); reflexivity.
Qed.

Lemma Path_rooted_last (a b q : PurePath) :
  String.eqb (root q) "" = false -> Path [a; b; q] = q.
Proof.
  intros Hq. unfold Path. simpl. unfold joinpath at 1. now rewrite Hq.
Qed.

End RootedJobName.

(** X14.  In the root-based job type a job name that starts with a
    ["/"] takes the place of the render output root and of the path
    components: the template is the job name's own path, then the
    timestamp component unless the directory is stable, then the file
    name, whatever the root and the number of path components. *)
Theorem rooted_job_name_replaces_root `{EvalContext} (root : string) (n : Z)
        (stable : bool) :
  Str.starts_with "/" jobname = true ->
  RootBasedEval.render_output_path root n stable
  = Pathlib.dir_prefix (Pathlib.of_string jobname)
    ++ (if stable then "" else "{timestamp}/")
    ++ Pathlib.name (Pathlib.of_string scene_render_filepath) ++ "_######".
Proof.
  intros Hj. rewrite <- template_text.
  rewrite <- (Path_rooted_last (abspath root) (last_n_dir_parts n)
                               (Pathlib.of_string jobname) (of_string_rooted _ Hj)).
  rewrite <- (template_parts _ stable _ (name_no_separator _)).
  unfold RootBasedEval.render_output_path. now destruct stable.
Qed.

Lemma rooted_job_name_replaces_root_witness :
  Str.starts_with "/" (@jobname sample_rooted_name_context) = true /\
  @RootBasedEval.render_output_path sample_rooted_name_context "/farm" 2 false
  = "/tmp/MyJob/{timestamp}/Anim03_######".
Proof.
  split; [reflexivity|].
  rewrite (@rooted_job_name_replaces_root sample_rooted_name_context "/farm" 2 false
             eq_refl).
  reflexivity.
Defined.

(** ** The arguments of a command *)

Section GoPathFacts.
Import GoPath.
















End GoPathFacts.





